(** * Tasmotizer: the flashing worker, its dialog and the serial IP listener

    A shallow embedding of [tasmotizer.py].  The Qt objects are modelled by
    the fields the code reads and writes, signals by the list of emissions
    in order, and the flashing driver ([tasmotizer_esptool], an external
    module) by an oracle that answers each call of [esptool.main]. *)

From Stdlib Require Import ZArith NArith List String Ascii Bool Lia.
From Stdlib Require Import DecimalString.
Import ListNotations.

Open Scope string_scope.
Open Scope list_scope.

(** ** Exceptions

    [execute] catches [esptool.FatalError] and [serial.SerialException]; any
    other exception leaves the slot.  [abort] and [accept] can fail with an
    [AttributeError] when [self.espworker] was never assigned, and
    [updateBinProgress] with a [ZeroDivisionError]. *)

Inductive Exn : Type :=
| FatalError (msg : string)
| SerialException (msg : string)
| AttributeError (attr : string)
| ZeroDivisionError
| OtherException (msg : string).

(** ["{}".format(e)]: the text of the exception. *)
Definition format_exn (e : Exn) : string :=
  match e with
  | FatalError m | SerialException m | OtherException m => m
  | AttributeError a => a
  | ZeroDivisionError => "integer division or modulo by zero"
  end.

(** The handler [except (esptool.FatalError, serial.SerialException)]. *)
Definition caught_by_execute (e : Exn) : bool :=
  match e with
  | FatalError _ | SerialException _ => true
  | _ => false
  end.

(** ** [datetime.now().strftime("%Y%m%d_%H%M%S")] *)

Record datetime : Type := {
  year : N; month : N; day : N; hour : N; minute : N; second : N
}.

Definition digit_char (d : N) : ascii := ascii_of_N (48 + d).

(** [%m], [%d], [%H], [%M], [%S]: two digits, zero padded. *)
Definition pad2 (n : N) : string :=
  String (digit_char (n / 10)) (String (digit_char (n mod 10)) EmptyString).

(** [%Y]: the year in decimal (four digits from the year 1000 on). *)
Definition year_str (y : N) : string := NilZero.string_of_uint (N.to_uint y).

Definition strftime_Ymd_HMS (now : datetime) : string :=
  (year_str (year now) ++ pad2 (month now) ++ pad2 (day now) ++ "_"
   ++ pad2 (hour now) ++ pad2 (minute now) ++ pad2 (second now))%string.

(** A date and time that [datetime.now()] can return. *)
Definition datetime_ok (now : datetime) : Prop :=
  (1000 <= year now <= 9999)%N /\ (1 <= month now <= 12)%N /\
  (1 <= day now <= 31)%N /\ (hour now <= 23)%N /\
  (minute now <= 59)%N /\ (second now <= 59)%N.

(** Reading a string of decimal digits back (used to state what the backup
    file name holds). *)
Definition digit_of (c : ascii) : option N :=
  let n := N_of_ascii c in
  if ((48 <=? n) && (n <=? 57))%N then Some (n - 48)%N else None.

Fixpoint digits_value_from (acc : N) (s : string) : option N :=
  match s with
  | EmptyString => Some acc
  | String c s' =>
      match digit_of c with
      | Some d => digits_value_from (acc * 10 + d)%N s'
      | None => None
      end
  end.

Definition digits_value (s : string) : option N := digits_value_from 0%N s.

(** ** The worker: [class ESPWorker] *)

Module ESPWorker.

(** The fields set by [__init__]. *)
Record t : Type := {
  port : string;
  bin_file : string;
  backup : bool;
  erase : bool;
  verify : bool;
  continue_flag : bool
}.

Definition init (port bin_file : string) (backup erase verify : bool) : t :=
  {| port := port; bin_file := bin_file; backup := backup; erase := erase;
     verify := verify; continue_flag := true |}.

Definition set_continue_flag (b : bool) (w : t) : t :=
  {| port := port w; bin_file := bin_file w; backup := backup w;
     erase := erase w; verify := verify w; continue_flag := b |}.

(** The worker's signals. *)
Inductive Signal : Type :=
| backup_start
| port_error (msg : string)
| finished.

Definition Command : Type := list string.

(** What is shared by the whole process: the continue flag of
    [esptool.sw], each write of it in order, the calls of [esptool.main]
    made so far and the signals emitted so far (oldest first). *)
Record Proc : Type := {
  sw_continue_flag : bool;
  sw_writes : list bool;
  calls : list Command;
  emitted : list Signal
}.

Definition fresh_proc (flag : bool) : Proc :=
  {| sw_continue_flag := flag; sw_writes := []; calls := []; emitted := [] |}.

(** [esptool.sw.setContinueFlag(b)] *)
Definition setContinueFlag (b : bool) (p : Proc) : Proc :=
  {| sw_continue_flag := b; sw_writes := sw_writes p ++ [b];
     calls := calls p; emitted := emitted p |}.

Definition emit (s : Signal) (p : Proc) : Proc :=
  {| sw_continue_flag := sw_continue_flag p; sw_writes := sw_writes p;
     calls := calls p; emitted := emitted p ++ [s] |}.

Definition log_call (c : Command) (p : Proc) : Proc :=
  {| sw_continue_flag := sw_continue_flag p; sw_writes := sw_writes p;
     calls := calls p ++ [c]; emitted := emitted p |}.

(** [stop]: the slot called from the dialog's thread. *)
Definition stop (st : t * Proc) : t * Proc :=
  let '(w, p) := st in
  (set_continue_flag false w, setContinueFlag false p).

(** The answer of the driver to one call of [esptool.main]: whether the
    dialog's thread ran [stop] while the call was in progress, and the
    exception the call raised, if any. *)
Record Reply : Type := {
  stop_during : bool;
  raised : option Exn
}.

Definition returns : Reply := {| stop_during := false; raised := None |}.
Definition raises (e : Exn) : Reply :=
  {| stop_during := false; raised := Some e |}.

(** The driver: the reply to the [n]-th call of the process (counted from
    0), given its command line. *)
Definition Driver : Type := nat -> Command -> Reply.

(** *** A state and exception monad for the slot's body *)

Inductive Res (A : Type) : Type :=
| Ok (a : A)
| Exc (e : Exn).
Arguments Ok {A} a.
Arguments Exc {A} e.

Definition M (A : Type) : Type := t * Proc -> Res A * (t * Proc).

Definition ret {A} (a : A) : M A := fun st => (Ok a, st).

Definition bind {A B} (c : M A) (k : A -> M B) : M B :=
  fun st =>
    match c st with
    | (Ok a, st') => k a st'
    | (Exc e, st') => (Exc e, st')
    end.

Notation "x <- c ;; k" := (bind c (fun x => k))
  (at level 61, c at next level, right associativity).
Notation "c ;;; k" := (bind c (fun _ => k))
  (at level 61, right associativity).

Definition get_self : M t := fun st => (Ok (fst st), st).
Definition on_proc (f : Proc -> Proc) : M unit :=
  fun st => (Ok tt, (fst st, f (snd st))).
Definition when (b : bool) (c : M unit) : M unit :=
  if b then c else ret tt.

(** [try: body except (esptool.FatalError, serial.SerialException) as e:
    handler e] *)
Definition try_except (body : M unit) (handler : Exn -> M unit) : M unit :=
  fun st =>
    match body st with
    | (Ok u, st') => (Ok u, st')
    | (Exc e, st') =>
        if caught_by_execute e then handler e st' else (Exc e, st')
    end.

(** [esptool.main(command)] *)
Definition esptool_main (drv : Driver) (command : Command) : M unit :=
  fun st =>
    let r := drv (List.length (calls (snd st))) command in
    let st1 := (fst st, log_call command (snd st)) in
    let st2 := if stop_during r then stop st1 else st1 in
    match raised r with
    | None => (Ok tt, st2)
    | Some e => (Exc e, st2)
    end.

Definition command_base (self : t) : Command :=
  ["--chip"; "esp8266"; "--port"; port self; "--baud"; "115200"].

Definition command_backup (now : datetime) : Command :=
  ["--after"; "no_reset"; "read_flash"; "0x00000"; "0x100000";
   ("backup_" ++ strftime_Ymd_HMS now ++ ".bin")%string].

Definition command_write (self : t) : Command :=
  ["--after"; "soft_reset"; "write_flash"; "--flash_mode"; "dout";
   "--flash_size"; "1MB"; "0x00000"; bin_file self].

(** [execute]: the slot run when the worker's thread starts.  [now] is the
    value of [datetime.now()] read on line 57.  ([print(command)] writes
    to the standard output only and is left out.) *)
Definition execute (drv : Driver) (now : datetime) : M unit :=
  on_proc (setContinueFlag true) ;;;
  self <- get_self ;;
  when (backup self && continue_flag self)
    (let command := command_base self ++ command_backup now in
     try_except
       (on_proc (emit backup_start) ;;;
        esptool_main drv command)
       (fun e => on_proc (emit (port_error (format_exn e))))) ;;;
  self <- get_self ;;
  when (continue_flag self)
    (let command := command_base self ++ command_write self in
     let command := if erase self then command ++ ["--erase-all"] else command in
     let command := if verify self then command ++ ["verify"] else command in
     try_except
       (esptool_main drv command ;;;
        on_proc (emit finished))
       (fun e => on_proc (emit (port_error (format_exn e))))).

(** One run from a process in which nothing has happened yet. *)
Definition run (drv : Driver) (now : datetime) (w : t) : Res unit * (t * Proc) :=
  execute drv now (w, fresh_proc true).

Definition is_terminal (s : Signal) : bool :=
  match s with
  | backup_start => false
  | port_error _ | finished => true
  end.

Definition terminal_signals (p : Proc) : list Signal :=
  filter is_terminal (emitted p).

End ESPWorker.

(** ** The dialog: [class FlashingDialog] *)

Module FlashingDialog.

Inductive DialogCode : Type := Rejected | Accepted.

(** [self.espthread]: whether [quit()] was requested, and the time (in
    milliseconds) after which the slot running in the thread returns
    ([None]: it never does, the serial operation is stuck).  The thread
    finishes when its event loop exits, that is once [quit()] was requested
    and the running slot has returned. *)
Record QThread : Type := {
  quit_requested : bool;
  busy_for : option N
}.

(** [QThread.wait(ms)] blocks the caller until the thread has finished or
    [ms] milliseconds have passed, whichever comes first; the result is
    the time the caller was blocked. *)
Definition wait_blocks (ms : N) (th : QThread) : N :=
  if quit_requested th then
    match busy_for th with
    | Some r => N.min r ms
    | None => ms
    end
  else ms.

(** What the dialog did to its thread, in order. *)
Inductive ThreadOp : Type :=
| op_start
| op_quit
| op_wait (ms : N).

(** The fields of the dialog that the flashing code reads or writes.
    [espworker] and [espthread] do not exist before [run_esptool].
    [proc] is the state shared with the worker's thread; [blocked] is the
    total time the dialog's thread spent inside [wait]. *)
Record t : Type := {
  bin_file : string;
  error_msg : option string;
  espworker : option ESPWorker.t;
  espthread : option QThread;
  proc : ESPWorker.Proc;
  thread_ops : list ThreadOp;
  blocked : N;
  progress_value : Z;
  result : option DialogCode
}.

Definition set_worker (w : ESPWorker.t) (p : ESPWorker.Proc) (d : t) : t :=
  {| bin_file := bin_file d; error_msg := error_msg d;
     espworker := Some w; espthread := espthread d; proc := p;
     thread_ops := thread_ops d; blocked := blocked d;
     progress_value := progress_value d; result := result d |}.

Definition set_thread (th : QThread) (op : ThreadOp) (ms : N) (d : t) : t :=
  {| bin_file := bin_file d; error_msg := error_msg d;
     espworker := espworker d; espthread := Some th; proc := proc d;
     thread_ops := thread_ops d ++ [op]; blocked := (blocked d + ms)%N;
     progress_value := progress_value d; result := result d |}.

Definition set_error_msg (e : string) (d : t) : t :=
  {| bin_file := bin_file d; error_msg := Some e;
     espworker := espworker d; espthread := espthread d; proc := proc d;
     thread_ops := thread_ops d; blocked := blocked d;
     progress_value := progress_value d; result := result d |}.

(** [QDialog.done(r)]: closes the dialog with result code [r]. *)
Definition done (r : DialogCode) (d : t) : t :=
  {| bin_file := bin_file d; error_msg := error_msg d;
     espworker := espworker d; espthread := espthread d; proc := proc d;
     thread_ops := thread_ops d; blocked := blocked d;
     progress_value := progress_value d; result := Some r |}.

(** [QDialog.reject()] *)
Definition reject (d : t) : t := done Rejected d.

(** [QProgressBar.setValue(v)]: a value outside the range 0..100 of the
    bar is ignored.  ([v] is a C [int]; [updateBinProgress], the one caller
    that computes its argument from unbounded integers, checks it.) *)
Definition setValue (v : Z) (d : t) : t :=
  if ((0 <=? v) && (v <=? 100))%Z then
    {| bin_file := bin_file d; error_msg := error_msg d;
       espworker := espworker d; espthread := espthread d; proc := proc d;
       thread_ops := thread_ops d; blocked := blocked d;
       progress_value := v; result := result d |}
  else d.

(** What [__init__] reads from the main window. *)
Record Parent : Type := {
  mode : Z;
  parent_bin_file : string;
  hackbox_file : string;    (* cbHackboxBin.currentData().split(";")[1] *)
  cbxPort : string;
  cbBackup : bool;
  cbErase : bool;
  cbVerify : bool
}.

(** [run_esptool]: a new thread and a new worker; the thread is started
    and will run [execute], which takes [busy] milliseconds. *)
Definition run_esptool (parent : Parent) (busy : option N) (d : t) : t :=
  let w := ESPWorker.init (cbxPort parent) (bin_file d) (cbBackup parent)
             (cbErase parent) (cbVerify parent) in
  set_thread {| quit_requested := false; busy_for := busy |} op_start 0
    (set_worker w (proc d) d).

(** [__init__]: in mode 1 or 2 the image is downloaded first and
    [run_esptool] is left to [saveBinFile]; otherwise flashing starts at
    once.  (The value of a new [QProgressBar] is -1.) *)
Definition init (parent : Parent) (p : ESPWorker.Proc) (busy : option N) : t :=
  let d := {| bin_file := EmptyString; error_msg := None; espworker := None;
              espthread := None; proc := p; thread_ops := []; blocked := 0;
              progress_value := (-1); result := None |} in
  let with_file f :=
    {| bin_file := f; error_msg := error_msg d; espworker := espworker d;
       espthread := espthread d; proc := proc d;
       thread_ops := thread_ops d; blocked := blocked d;
       progress_value := progress_value d; result := result d |} in
  if ((mode parent =? 1) || (mode parent =? 2))%Z
  then with_file (hackbox_file parent)
  else run_esptool parent busy (with_file (parent_bin_file parent)).

(** [updateBinProgress(recv, total)]: the value handed to [setValue] is
    [recv//total*100], Python's floor division first ([Z.div] rounds down
    as [//] does). *)
Definition bin_progress (recv total : Z) : Exn + Z :=
  if (total =? 0)%Z then inl ZeroDivisionError
  else inr (recv / total * 100)%Z.

(** Whether [v] fits the C [int] that [setValue] takes; PyQt raises an
    [OverflowError] otherwise. *)
Definition fits_int (v : Z) : bool :=
  ((-2147483648 <=? v) && (v <=? 2147483647))%Z.

Definition updateBinProgress (recv total : Z) (d : t) : Exn + t :=
  match bin_progress recv total with
  | inl e => inl e
  | inr v =>
      if fits_int v then inr (setValue v d)
      else inl (OtherException "OverflowError")
  end.

(** The three lines shared by [abort] and [accept]:
    [self.espworker.stop(); self.espthread.quit(); self.espthread.wait(2000)]. *)
Definition stop_quit_wait (d : t) : Exn + t :=
  match espworker d with
  | None => inl (AttributeError "espworker")
  | Some w =>
      let '(w', p') := ESPWorker.stop (w, proc d) in
      let d1 := set_worker w' p' d in
      match espthread d1 with
      | None => inl (AttributeError "espthread")
      | Some th =>
          let th' := {| quit_requested := true; busy_for := busy_for th |} in
          let d2 := set_thread th' op_quit 0 d1 in
          inr (set_thread th' (op_wait 2000) (wait_blocks 2000 th') d2)
      end
  end.

Definition abort (d : t) : Exn + t :=
  match stop_quit_wait d with
  | inl e => inl e
  | inr d' => inr (reject d')
  end.

Definition error (e : string) (d : t) : t :=
  reject (set_error_msg e d).

Definition accept (d : t) : Exn + t :=
  match stop_quit_wait d with
  | inl e => inl e
  | inr d' => inr (done Accepted d')
  end.

(** [write_finished]: the slot of the driver's signal of that name. *)
Definition write_finished (d : t) : Exn + t :=
  accept (setValue 100 d).

(** [dlg.exec_()]: the result code of the closed dialog ([Rejected] is the
    code of a dialog on which [done] was never called). *)
Definition exec_ (d : t) : DialogCode :=
  match result d with
  | Some r => r
  | None => Rejected
  end.

End FlashingDialog.

(** ** The main window: [class Tasmotizer] *)

Module Tasmotizer.

Inductive MessageBox : Type :=
| information (title text : string)
| critical (title text : string).

(** Python's truth value of [dlg.error_msg]: [None] and the empty string
    are false. *)
Definition truthy (m : option string) : bool :=
  match m with
  | None => false
  | Some EmptyString => false
  | Some _ => true
  end.

(** The end of [start_process]: the message box shown once the dialog has
    closed. *)
Definition present (dlg : FlashingDialog.t) : MessageBox :=
  match FlashingDialog.exec_ dlg with
  | FlashingDialog.Accepted =>
      information "Done" "Flashing successful! Power cycle the device."
  | FlashingDialog.Rejected =>
      if truthy (FlashingDialog.error_msg dlg) then
        critical "Error"
          (match FlashingDialog.error_msg dlg with
           | Some m => m
           | None => EmptyString
           end)
      else
        critical "Flashing aborted"
          "Flashing process has been aborted by the user."
  end.


(** *** [showCurrentIP]: the slot of the serial port's [readyRead] *)

(** A Python [str] as the list of its code points. *)
Definition text : Type := list N.

Definition text_of_string (s : string) : text :=
  map N_of_ascii (list_ascii_of_string s).

Definition bytes : Type := list Byte.byte.

Definition bytes_of_string (s : string) : bytes := list_byte_of_string s.

(** [str(b, 'utf8')]: strict UTF-8, [None] for a [UnicodeDecodeError]. *)
Definition is_cont (b : N) : bool := ((128 <=? b) && (b <=? 191))%N.

Definition second_ok (b0 b1 : N) : bool :=
  (if b0 =? 224 then (160 <=? b1) && (b1 <=? 191)
   else if b0 =? 237 then (128 <=? b1) && (b1 <=? 159)
   else if b0 =? 240 then (144 <=? b1) && (b1 <=? 191)
   else if b0 =? 244 then (128 <=? b1) && (b1 <=? 143)
   else is_cont b1)%N.

Fixpoint decode_utf8 (bs : list N) : option text :=
  match bs with
  | [] => Some []
  | b0 :: r0 =>
      if (b0 <? 128)%N then option_map (cons b0) (decode_utf8 r0)
      else if ((194 <=? b0) && (b0 <=? 223))%N then
        match r0 with
        | b1 :: r1 =>
            if is_cont b1
            then option_map (cons ((b0 - 192) * 64 + (b1 - 128))%N)
                   (decode_utf8 r1)
            else None
        | _ => None
        end
      else if ((224 <=? b0) && (b0 <=? 239))%N then
        match r0 with
        | b1 :: b2 :: r2 =>
            if second_ok b0 b1 && is_cont b2
            then option_map
                   (cons ((b0 - 224) * 4096 + (b1 - 128) * 64 + (b2 - 128))%N)
                   (decode_utf8 r2)
            else None
        | _ => None
        end
      else if ((240 <=? b0) && (b0 <=? 244))%N then
        match r0 with
        | b1 :: b2 :: b3 :: r3 =>
            if second_ok b0 b1 && is_cont b2 && is_cont b3
            then option_map
                   (cons ((b0 - 240) * 262144 + (b1 - 128) * 4096
                          + (b2 - 128) * 64 + (b3 - 128))%N)
                   (decode_utf8 r3)
            else None
        | _ => None
        end
      else None
  end.

Definition str_utf8 (b : bytes) : option text :=
  decode_utf8 (map Byte.to_N b).

(** [.replace("\r\n", "")]: every carriage return followed by a line feed
    is removed, from left to right. *)
Fixpoint remove_crlf (s : text) : text :=
  match s with
  | [] => []
  | c :: t =>
      match t with
      | d :: t' =>
          if ((c =? 13) && (d =? 10))%N then remove_crlf t'
          else c :: remove_crlf t
      | [] => [c]
      end
  end.

Section Regex.

(** The decimal digits of Unicode above ASCII (category Nd of the
    interpreter's Unicode database): [\d] of a [str] pattern matches
    them too. *)
Variable unicode_Nd : N -> bool.

Definition is_digit (c : N) : bool :=
  if (c <? 128)%N then ((48 <=? c) && (c <=? 57))%N else unicode_Nd c.

(** [\d{1,3}] at the start of [s]: the ways to split off one to [n]
    digits, the longest first (the order in which the greedy repetition
    tries them). *)
Fixpoint digit_prefixes (n : nat) (s : text) : list (text * text) :=
  match n, s with
  | S n', c :: s' =>
      if is_digit c
      then map (fun dr => (c :: fst dr, snd dr)) (digit_prefixes n' s')
             ++ [([c], s')]
      else []
  | _, _ => []
  end.

Fixpoint first_some {A B : Type} (f : A -> option B) (l : list A) : option B :=
  match l with
  | [] => None
  | a :: l' =>
      match f a with
      | Some b => Some b
      | None => first_some f l'
      end
  end.

(** [\d{1,3}(\.\d{1,3}){k}] at the start of [s], by backtracking: the
    matched text, if any. *)
Fixpoint match_groups (k : nat) (s : text) : option text :=
  match k with
  | O => first_some (fun dr => Some (fst dr)) (digit_prefixes 3 s)
  | S k' =>
      first_some
        (fun dr =>
           match snd dr with
           | c :: r =>
               if (c =? 46)%N
               then option_map (fun ip => fst dr ++ 46%N :: ip)
                      (match_groups k' r)
               else None
           | [] => None
           end)
        (digit_prefixes 3 s)
  end.

Fixpoint strip_prefix (p s : text) : option text :=
  match p, s with
  | [], _ => Some s
  | a :: p', b :: s' => if (a =? b)%N then strip_prefix p' s' else None
  | _ :: _, [] => None
  end.

(** The pattern at the start of [s]: the text of group [ip]. *)
Definition match_here (s : text) : option text :=
  match strip_prefix (text_of_string "IP address ") s with
  | Some r => match_groups 3 r
  | None => None
  end.

(** [re.search(r"IP address (?P<ip>\d{1,3}\.\d{1,3}\.\d{1,3}\.\d{1,3})", s)]:
    the leftmost match. *)
Fixpoint re_search (s : text) : option text :=
  match match_here s with
  | Some ip => Some ip
  | None =>
      match s with
      | [] => None
      | _ :: s' => re_search s'
      end
  end.

(** The fields of the main window that the slot uses. *)
Record Listener : Type := {
  previous_reply : bytes;
  port_open : bool;
  shown : list text          (* the calls of [self.sb.showMessage] *)
}.

Definition listening : Listener :=
  {| previous_reply := []; port_open := true; shown := [] |}.

(** [showCurrentIP], [current_reply] being what [self.port.readAll()]
    returns.  A decoding error is swallowed by [except: pass]. *)
Definition showCurrentIP (current_reply : bytes) (self : Listener) : Listener :=
  match str_utf8 (previous_reply self ++ current_reply) with
  | None => self
  | Some decoded =>
      let reply := remove_crlf decoded in
      match re_search reply with
      | Some ip =>
          {| previous_reply := previous_reply self;
             port_open := false;
             shown := shown self ++ [text_of_string "Device IP: " ++ ip] |}
      | None =>
          {| previous_reply := current_reply;
             port_open := port_open self;
             shown := shown self |}
      end
  end.

(** The chunks that arrive on the port, oldest first: [readyRead] runs
    the slot for each of them as long as the port is open. *)
Definition feed (chunks : list bytes) (self : Listener) : Listener :=
  fold_left (fun l c => if port_open l then showCurrentIP c l else l)
    chunks self.

End Regex.

End Tasmotizer.

(** * Properties of the worker *)

Module ESPWorkerFacts.
Import ESPWorker.

(** The command line of the backup stage and of the write stage. *)
Definition backup_command_line (now : datetime) (w : t) : Command :=
  command_base w ++ command_backup now.

Definition write_options (w : t) : Command :=
  (if erase w then ["--erase-all"] else [])
  ++ (if verify w then ["verify"] else []).

Definition write_command_line (w : t) : Command :=
  command_base w ++ command_write w ++ write_options w.

(** The stages that the flags of the worker select. *)
Definition planned_calls (now : datetime) (w : t) : list Command :=
  (if backup w then [backup_command_line now w] else [])
  ++ [write_command_line w].

(** A driver during whose calls nobody presses Abort, and which fails
    only with the two exceptions that [execute] handles. *)
Definition undisturbed (drv : Driver) : Prop :=
  forall n c,
    stop_during (drv n c) = false /\
    match raised (drv n c) with
    | Some e => caught_by_execute e = true
    | None => True
    end.

(** A worker and a moment used in the examples. *)
Definition sample_worker : t := init "/dev/ttyUSB0" "tasmota.bin" true true false.

Definition sample_now : datetime :=
  {| year := 2020; month := 3; day := 7; hour := 9; minute := 5; second := 0 |}.

(** The driver whose first call (call 0) raises [e] and whose later calls
    answer as [later] does. *)
Definition first_call_raises (e : Exn) (later : Driver) : Driver :=
  fun n c =>
    match n with
    | O => raises e
    | S _ => later n c
    end.

Definition always_returns : Driver := fun _ _ => returns.

#[local] Arguments command_base : simpl never.
#[local] Arguments command_backup : simpl never.
#[local] Arguments command_write : simpl never.

Ltac unfold_execute :=
  unfold run, execute, bind, when, try_except, esptool_main, on_proc,
    get_self, ret in *;
  cbn in *.

(** One call of an undisturbed driver. *)
Ltac step_reply Hdrv drv :=
  match goal with
  | |- context [drv ?n ?c] =>
      let H := fresh "H" in
      let sd := fresh "sd" in
      let e := fresh "e" in
      generalize (Hdrv n c);
      destruct (drv n c) as [sd [e|]]; cbn; intros [? H];
      subst; try rewrite H; cbn
  end.

(** One call of any driver, by cases on its reply. *)
Ltac any_reply drv :=
  match goal with
  | |- context [drv ?n ?c] =>
      destruct (drv n c) as [[|] [[?|?|?| |?]|]]; cbn
  end.

Ltac flatten_commands :=
  unfold planned_calls, backup_command_line, write_command_line,
    write_options, command_base, command_write;
  cbn;
  rewrite <- ?app_assoc; cbn.

(** Whatever the driver answers, with nobody pressing Abort, a worker
    that was not stopped issues every planned call, in order, and is left
    as it was. *)
Lemma execute_undisturbed (drv : Driver) (now : datetime) (w : t) (p : Proc) :
  undisturbed drv ->
  continue_flag w = true ->
  exists p',
    execute drv now (w, p) = (Ok tt, (w, p')) /\
    calls p' = calls p ++ planned_calls now w /\
    sw_continue_flag p' = true /\
    sw_writes p' = sw_writes p ++ [true].
Proof.
  intros Hdrv Hflag.
  destruct w as [pt bf bk er vf cf]; cbn in Hflag; subst cf.
  destruct bk; unfold_execute; repeat step_reply Hdrv drv;
    (eexists; split; [reflexivity|]); cbn;
    destruct er, vf; flatten_commands; auto.
Qed.

(** Every call that [execute] makes is the backup command line or the
    write command line of the worker, whatever the driver does. *)
Lemma execute_calls (drv : Driver) (now : datetime) (w : t) (p : Proc) :
  exists cs,
    calls (snd (snd (execute drv now (w, p)))) = calls p ++ cs /\
    forall c, In c cs ->
      c = backup_command_line now w \/ c = write_command_line w.
Proof.
  destruct w as [pt bf bk er vf cf].
  destruct bk, cf; unfold_execute; repeat any_reply drv;
    try (exists []; rewrite app_nil_r; split; [reflexivity | intros ? []]);
    try (eexists [_]; split; [reflexivity|]; intros c [<-|[]];
         destruct er, vf; flatten_commands; auto);
    try (eexists [_; _]; split; [rewrite <- app_assoc; reflexivity|];
         intros c [<-|[<-|[]]];
         destruct er, vf; flatten_commands; auto).
Qed.

(** The run of the sample worker with a driver that always returns: backup,
    then write, one [finished]. *)
Example happy_path_signals :
  emitted (snd (snd (run always_returns sample_now sample_worker)))
  = [backup_start; finished].
Proof. reflexivity. Qed.

(** A worker stopped before its thread runs [execute] calls nothing and
    emits nothing, and the shared flag ends up set again. *)
Example stopped_before_start (drv : Driver) :
  let st := snd (execute drv sample_now (stop (sample_worker, fresh_proc true))) in
  calls (snd st) = [] /\ emitted (snd st) = [] /\
  sw_continue_flag (snd st) = true /\ sw_writes (snd st) = [false; true].
Proof. cbv zeta; repeat split; reflexivity. Qed.

(** Abort pressed while the backup call is in progress: the write stage is
    skipped, whether the backup call then returns or raises. *)
Lemma stop_during_backup_skips_write
  (pt bf : string) (er vf : bool) (now : datetime) (r : option Exn)
  (later : Driver) :
  let w := init pt bf true er vf in
  let drv : Driver := fun n c =>
    match n with
    | O => {| stop_during := true; raised := r |}
    | S _ => later n c
    end in
  calls (snd (snd (run drv now w))) = [backup_command_line now w].
Proof.
  cbv zeta. unfold init; unfold_execute.
  destruct r as [[?|?|?| |?]|]; reflexivity.
Qed.

(** C1 (code defect).  A run asked to back up first, whose backup call
    raises [esptool.FatalError]: the handler emits [port_error] and the slot
    goes on to its second [if], so the write call is made all the same.  The
    calls of the run are the backup command line followed by the write
    command line, for every port, image, erase and verify choice, moment and
    error text, and whatever the driver answers to the write. *)
Theorem failed_backup_is_followed_by_write
  (pt bf : string) (er vf : bool) (now : datetime) (msg : string)
  (later : Driver) :
  let w := init pt bf true er vf in
  let st := snd (run (first_call_raises (FatalError msg) later) now w) in
  calls (snd st) = [backup_command_line now w; write_command_line w] /\
  firstn 2 (emitted (snd st)) = [backup_start; port_error msg].
Proof.
  intros w st; subst w st.
  unfold first_call_raises, init, raises; unfold_execute.
  repeat any_reply later; destruct er, vf; flatten_commands; auto.
Qed.

(** C2 (code defect).  In the same run, with a write that succeeds, the
    worker emits two terminal signals: [port_error] for the backup and then
    [finished]. *)
Theorem failed_backup_emits_two_terminal_signals
  (pt bf : string) (er vf : bool) (now : datetime) (msg : string) :
  let w := init pt bf true er vf in
  let st := snd (run (first_call_raises (FatalError msg) always_returns) now w) in
  emitted (snd st) = [backup_start; port_error msg; finished] /\
  terminal_signals (snd st) = [port_error msg; finished].
Proof.
  intros w st; subst w st.
  unfold terminal_signals, first_call_raises, always_returns, init, raises,
    returns; unfold_execute.
  destruct er, vf; auto.
Qed.

(** The terminal signals of a run of a worker that was not stopped, with an
    undisturbed driver whose backup call (if any) returns: exactly one. *)
Lemma one_terminal_signal_when_backup_returns
  (drv : Driver) (now : datetime) (w : t) :
  undisturbed drv ->
  continue_flag w = true ->
  raised (drv 0 (backup_command_line now w)) = None ->
  List.length (terminal_signals (snd (snd (run drv now w)))) = 1.
Proof.
  intros Hdrv Hflag Hbackup.
  destruct w as [pt bf bk er vf cf]; cbn in Hflag; subst cf.
  unfold terminal_signals, backup_command_line in *.
  destruct bk; unfold_execute.
  - generalize (Hdrv 0 (command_base
       {| port := pt; bin_file := bf; backup := true; erase := er;
          verify := vf; continue_flag := true |} ++ command_backup now)).
    rewrite Hbackup.
    destruct (drv 0 _) as [sd r]; cbn in *; subst r; intros [-> _]; cbn.
    step_reply Hdrv drv; reflexivity.
  - step_reply Hdrv drv; reflexivity.
Qed.

(** The number of the calls [cs], made from call number [start] on,
    during which [stop] ran. *)
Fixpoint stops_in (drv : Driver) (start : nat) (cs : list Command) : nat :=
  match cs with
  | [] => 0
  | c :: cs' =>
      (if stop_during (drv start c) then 1 else 0)
      + stops_in drv (S start) cs'
  end.

(** One call of any driver, by cases on its reply, the reply kept as an
    equation on the number of the call. *)
Ltac numbered_reply drv :=
  rewrite ?length_app; cbn [List.length]; rewrite ?Nat.add_1_r;
  match goal with
  | |- context [drv ?n ?c] =>
      let E := fresh "E" in
      destruct (drv n c) as [[|] [[?|?|?| |?]|]] eqn:E; cbn
  end.

(** C3, as the code has it.  In every run, whatever the driver answers and
    whenever Abort is pressed during its calls: the writes of the flag of
    [esptool.sw] are one [True], written by [execute] before the first call
    of the driver, followed by one [False] for each [stop] that ran during
    a call, so that the flag ends [True] exactly when no [stop] ran; and
    the worker is left as it was unless a [stop] ran, which sets its own
    [continue_flag] to [False], the only change that is ever made to it. *)
Theorem continue_flags_discipline
  (drv : Driver) (now : datetime) (w : t) (p : Proc) :
  exists cs,
    calls (snd (snd (execute drv now (w, p)))) = calls p ++ cs /\
    sw_writes (snd (snd (execute drv now (w, p))))
    = sw_writes p
      ++ true :: repeat false (stops_in drv (List.length (calls p)) cs) /\
    sw_continue_flag (snd (snd (execute drv now (w, p))))
    = (stops_in drv (List.length (calls p)) cs =? 0)%nat /\
    fst (snd (execute drv now (w, p)))
    = (if (stops_in drv (List.length (calls p)) cs =? 0)%nat then w
       else set_continue_flag false w).
Proof.
  destruct w as [pt bf bk er vf cf].
  destruct bk, cf; unfold_execute; repeat numbered_reply drv;
    (first
       [ exists []; split; [rewrite app_nil_r; reflexivity|]
       | eexists [_]; split; [reflexivity|]
       | eexists [_; _]; split; [rewrite <- app_assoc; reflexivity|] ]);
    cbn [stops_in];
    repeat match goal with
    | H : drv _ _ = _ |- _ => rewrite H; clear H
    end;
    cbn; rewrite <- ?app_assoc; auto.
Qed.

(** Abort pressed during the write call of a run without backup: the
    writes of the shared flag are [True], then [False]. *)
Example stop_during_write_flag_writes (pt bf : string) (er vf : bool) :
  let drv : Driver := fun _ _ => {| stop_during := true; raised := None |} in
  let st := snd (run drv sample_now (init pt bf false er vf)) in
  sw_writes (snd st) = [true; false] /\
  sw_continue_flag (snd st) = false /\
  continue_flag (fst st) = false.
Proof. cbv zeta; repeat split; reflexivity. Qed.

(** C3 as stated fails: in a run during which nobody asks to stop, the
    worker itself writes the shared flag of [esptool.sw], and the value it
    writes is [True]. *)
Lemma worker_resets_shared_flag :
  sw_writes (snd (snd (run always_returns sample_now sample_worker))) = [true].
Proof. reflexivity. Qed.

(** C4, as the code has it.  Nothing records that a worker has run: with an
    undisturbed driver, a second [execute] on the same instance returns
    normally as the first did and issues the planned calls once more. *)
Theorem execute_twice_runs_twice
  (drv : Driver) (now : datetime) (w : t) (p : Proc) :
  undisturbed drv ->
  continue_flag w = true ->
  exists p1 p2,
    execute drv now (w, p) = (Ok tt, (w, p1)) /\
    execute drv now (w, p1) = (Ok tt, (w, p2)) /\
    calls p1 = calls p ++ planned_calls now w /\
    calls p2 = calls p1 ++ planned_calls now w /\
    In (write_command_line w) (planned_calls now w).
Proof.
  intros Hdrv Hflag.
  destruct (execute_undisturbed drv now w p Hdrv Hflag) as (p1 & E1 & C1 & _).
  destruct (execute_undisturbed drv now w p1 Hdrv Hflag) as (p2 & E2 & C2 & _).
  exists p1, p2; repeat split; auto.
  unfold planned_calls; apply in_or_app; right; left; reflexivity.
Qed.

Lemma execute_twice_runs_twice_witness :
  exists p1 p2,
    execute always_returns sample_now (sample_worker, fresh_proc true)
      = (Ok tt, (sample_worker, p1)) /\
    execute always_returns sample_now (sample_worker, p1)
      = (Ok tt, (sample_worker, p2)) /\
    calls p1 = calls (fresh_proc true) ++ planned_calls sample_now sample_worker /\
    calls p2 = calls p1 ++ planned_calls sample_now sample_worker /\
    In (write_command_line sample_worker)
      (planned_calls sample_now sample_worker).
Proof.
  apply (execute_twice_runs_twice always_returns sample_now sample_worker
           (fresh_proc true)).
  - intros n c; split; reflexivity.
  - reflexivity.
Defined.

(** C4 as stated fails: the second [execute] on a worker that has already
    run raises nothing and calls the driver again, twice here (backup and
    write), so that four calls have been made after it. *)
Lemma second_execute_calls_driver_again :
  let first := run always_returns sample_now sample_worker in
  let again := execute always_returns sample_now (snd first) in
  fst first = Ok tt /\
  fst again = Ok tt /\
  calls (snd (snd first)) = planned_calls sample_now sample_worker /\
  calls (snd (snd again)) =
    planned_calls sample_now sample_worker
    ++ planned_calls sample_now sample_worker.
Proof. cbv zeta; repeat split; reflexivity. Qed.

End ESPWorkerFacts.

(** * The backup file name and the command lines *)

Module CommandLineFacts.
Import ESPWorker ESPWorkerFacts.

Lemma digit_of_digit_char (d : N) :
  (d < 10)%N -> digit_of (digit_char d) = Some d.
Proof.
  intros Hd. unfold digit_of, digit_char.
  rewrite N_ascii_embedding by lia.
  replace ((48 <=? 48 + d)%N) with true by (symmetry; apply N.leb_le; lia).
  replace ((48 + d <=? 57)%N) with true by (symmetry; apply N.leb_le; lia).
  cbv [andb]. f_equal. lia.
Qed.

(** [%Y] from the year 1000 to the year 9999: the four decimal digits. *)
Definition four_digits (y : N) : string :=
  String (digit_char (y / 1000))
    (String (digit_char (y / 100 mod 10))
       (String (digit_char (y / 10 mod 10))
          (String (digit_char (y mod 10)) EmptyString))).

Lemma year_str_four_digits (y : N) :
  (1000 <= y <= 9999)%N -> year_str y = four_digits y.
Proof.
  intros Hy.
  assert (Hall : forallb
            (fun n => let y := (1000 + N.of_nat n)%N in
                      String.eqb (year_str y) (four_digits y))
            (seq 0 (N.to_nat 9000)) = true) by (vm_compute; reflexivity).
  rewrite forallb_forall in Hall.
  specialize (Hall (N.to_nat (y - 1000))).
  cbv zeta in Hall.
  replace (1000 + N.of_nat (N.to_nat (y - 1000)))%N with y in Hall by lia.
  apply String.eqb_eq, Hall, in_seq. lia.
Qed.

Lemma digits_value_from_app (a b : string) (acc : N) :
  digits_value_from acc (a ++ b)%string =
  match digits_value_from acc a with
  | Some v => digits_value_from v b
  | None => None
  end.
Proof.
  revert acc; induction a as [|c a IH]; intros acc; cbn; [reflexivity|].
  destruct (digit_of c); [apply IH | reflexivity].
Qed.

Lemma digits_value_from_pad2 (n acc : N) :
  (n < 100)%N -> digits_value_from acc (pad2 n) = Some (acc * 100 + n)%N.
Proof.
  intros Hn. unfold pad2; cbn.
  assert (n / 10 < 10)%N by (apply N.Div0.div_lt_upper_bound; lia).
  assert (n mod 10 < 10)%N by (apply N.mod_lt; lia).
  rewrite !digit_of_digit_char by assumption.
  f_equal. pose proof (N.div_mod n 10). lia.
Qed.

Lemma digits_value_from_four_digits (y : N) :
  (y <= 9999)%N -> digits_value_from 0 (four_digits y) = Some y.
Proof.
  intros Hy. unfold four_digits; cbn.
  assert (y / 1000 < 10)%N by (apply N.Div0.div_lt_upper_bound; lia).
  assert (y / 100 mod 10 < 10)%N by (apply N.mod_lt; lia).
  assert (y / 10 mod 10 < 10)%N by (apply N.mod_lt; lia).
  assert (y mod 10 < 10)%N by (apply N.mod_lt; lia).
  rewrite !digit_of_digit_char by assumption.
  f_equal.
  pose proof (N.div_mod y 10).
  pose proof (N.div_mod (y / 10) 10).
  pose proof (N.div_mod (y / 100) 10).
  replace (y / 100)%N with (y / 10 / 10)%N in *
    by (rewrite N.Div0.div_div; reflexivity).
  replace (y / 1000)%N with (y / 10 / 10 / 10)%N in *
    by (rewrite !N.Div0.div_div; reflexivity).
  assert (y / 10 / 10 / 10 / 10 = 0)%N.
  { rewrite !N.Div0.div_div. apply N.div_small. lia. }
  pose proof (N.div_mod (y / 10 / 10 / 10) 10).
  pose proof (N.mod_lt (y / 10 / 10 / 10) 10).
  lia.
Qed.

(** The name [backup_<YYYYMMDD>_<HHMMSS>.bin] of the moment [now]: eight
    digits that read as the date and six that read as the time of day. *)
Definition is_backup_name_of (now : datetime) (name : string) : Prop :=
  exists d t : string,
    name = ("backup_" ++ d ++ "_" ++ t ++ ".bin")%string /\
    String.length d = 8 /\ String.length t = 6 /\
    digits_value d = Some (year now * 10000 + month now * 100 + day now)%N /\
    digits_value t = Some (hour now * 10000 + minute now * 100 + second now)%N.

Lemma backup_name_of_now (now : datetime) :
  datetime_ok now ->
  is_backup_name_of now ("backup_" ++ strftime_Ymd_HMS now ++ ".bin")%string.
Proof.
  intros (Hy & Hm & Hd & HH & HM & HS).
  exists (year_str (year now) ++ pad2 (month now) ++ pad2 (day now))%string,
         (pad2 (hour now) ++ pad2 (minute now) ++ pad2 (second now))%string.
  rewrite year_str_four_digits by assumption.
  split; [|split; [reflexivity|split; [reflexivity|split]]].
  - unfold strftime_Ymd_HMS. rewrite year_str_four_digits by assumption.
    reflexivity.
  - unfold digits_value.
    rewrite digits_value_from_app, digits_value_from_four_digits by lia.
    rewrite digits_value_from_app, digits_value_from_pad2 by lia.
    rewrite digits_value_from_pad2 by lia.
    f_equal; lia.
  - unfold digits_value.
    rewrite digits_value_from_app, digits_value_from_pad2 by lia.
    rewrite digits_value_from_app, digits_value_from_pad2 by lia.
    rewrite digits_value_from_pad2 by lia.
    f_equal; lia.
Qed.

(** C9.  Every call that a run makes carries the fixed parameters: it is
    either the backup command line ([--after no_reset read_flash 0x00000
    0x100000] into the file named after the moment read at the start of the
    run) or the write command line ([--after soft_reset write_flash
    --flash_mode dout --flash_size 1MB 0x00000] and the image, followed by
    the options chosen), both after the same port options.  The calls are
    the planned ones when the worker was not stopped and nobody disturbs
    the driver. *)
Theorem driver_command_lines
  (drv : Driver) (now : datetime) (w : t) (p : Proc) :
  datetime_ok now ->
  exists cs,
    calls (snd (snd (execute drv now (w, p)))) = calls p ++ cs /\
    (forall c, In c cs ->
       (exists name,
          is_backup_name_of now name /\
          c = ["--chip"; "esp8266"; "--port"; port w; "--baud"; "115200";
               "--after"; "no_reset"; "read_flash"; "0x00000"; "0x100000";
               name])
       \/
       c = ["--chip"; "esp8266"; "--port"; port w; "--baud"; "115200";
            "--after"; "soft_reset"; "write_flash"; "--flash_mode"; "dout";
            "--flash_size"; "1MB"; "0x00000"; bin_file w]
           ++ write_options w) /\
    (undisturbed drv -> continue_flag w = true -> cs = planned_calls now w).
Proof.
  intros Hnow.
  destruct (execute_calls drv now w p) as (cs & Hcs & Hin).
  exists cs; split; [exact Hcs | split].
  - intros c Hc. destruct (Hin c Hc) as [-> | ->].
    + left. eexists; split; [apply (backup_name_of_now now Hnow) | reflexivity].
    + right. reflexivity.
  - intros Hdrv Hflag.
    destruct (execute_undisturbed drv now w p Hdrv Hflag) as (p' & E & C & _).
    rewrite E in Hcs; cbn in Hcs. rewrite C in Hcs.
    apply app_inv_head in Hcs. symmetry; exact Hcs.
Qed.

Lemma driver_command_lines_witness :
  exists cs,
    calls (snd (snd (execute always_returns sample_now
                       (sample_worker, fresh_proc true))))
      = calls (fresh_proc true) ++ cs /\
    (forall c, In c cs ->
       (exists name,
          is_backup_name_of sample_now name /\
          c = ["--chip"; "esp8266"; "--port"; port sample_worker; "--baud";
               "115200"; "--after"; "no_reset"; "read_flash"; "0x00000";
               "0x100000"; name])
       \/
       c = ["--chip"; "esp8266"; "--port"; port sample_worker; "--baud";
            "115200"; "--after"; "soft_reset"; "write_flash"; "--flash_mode";
            "dout"; "--flash_size"; "1MB"; "0x00000"; bin_file sample_worker]
           ++ write_options sample_worker) /\
    (undisturbed always_returns -> continue_flag sample_worker = true ->
     cs = planned_calls sample_now sample_worker).
Proof.
  apply (driver_command_lines always_returns sample_now sample_worker
           (fresh_proc true)).
  unfold datetime_ok, sample_now; cbn; lia.
Defined.

(** The command lines of the sample run, in full. *)
Example sample_run_calls :
  calls (snd (snd (run always_returns sample_now sample_worker))) =
  [ ["--chip"; "esp8266"; "--port"; "/dev/ttyUSB0"; "--baud"; "115200";
     "--after"; "no_reset"; "read_flash"; "0x00000"; "0x100000";
     "backup_20200307_090500.bin"];
    ["--chip"; "esp8266"; "--port"; "/dev/ttyUSB0"; "--baud"; "115200";
     "--after"; "soft_reset"; "write_flash"; "--flash_mode"; "dout";
     "--flash_size"; "1MB"; "0x00000"; "tasmota.bin"; "--erase-all"] ].
Proof. reflexivity. Qed.

End CommandLineFacts.

(** * Properties of the dialog and of the main window *)

Module DialogFacts.
Import ESPWorker FlashingDialog Tasmotizer.

(** A main window set to flash a local file, and one set to download a
    release first. *)
Definition local_parent : Parent :=
  {| mode := 0; parent_bin_file := "tasmota.bin"; hackbox_file := EmptyString;
     cbxPort := "/dev/ttyUSB0"; cbBackup := false; cbErase := true;
     cbVerify := false |}.

Definition downloading_parent (m : Z) (file pt : string) (bk er vf : bool) : Parent :=
  {| mode := m; parent_bin_file := EmptyString; hackbox_file := file;
     cbxPort := pt; cbBackup := bk; cbErase := er; cbVerify := vf |}.

(** The dialog of [local_parent] just after [__init__], its worker busy for
    [busy] milliseconds. *)
Definition flashing_dialog (busy : option N) : FlashingDialog.t :=
  FlashingDialog.init local_parent (fresh_proc true) busy.

Definition aborted_by_user : MessageBox :=
  critical "Flashing aborted" "Flashing process has been aborted by the user.".

Lemma wait_blocks_le (ms : N) (th : QThread) : (wait_blocks ms th <= ms)%N.
Proof.
  unfold wait_blocks. destruct (quit_requested th), (busy_for th); lia.
Qed.

(** What the three shared lines do once the worker and its thread exist. *)
Lemma stop_quit_wait_spec (d : FlashingDialog.t) (w : ESPWorker.t) (th : QThread) :
  espworker d = Some w ->
  espthread d = Some th ->
  exists d',
    stop_quit_wait d = inr d' /\
    espworker d' = Some (set_continue_flag false w) /\
    proc d' = setContinueFlag false (proc d) /\
    thread_ops d' = thread_ops d ++ [op_quit; op_wait 2000] /\
    (blocked d <= blocked d' <= blocked d + 2000)%N /\
    error_msg d' = error_msg d /\
    result d' = result d.
Proof.
  intros Hw Hth. unfold stop_quit_wait. rewrite Hw. cbn. rewrite Hth.
  eexists; split; [reflexivity|]. cbn.
  rewrite <- app_assoc. repeat split; auto;
    destruct (busy_for th); lia.
Qed.

(** C10, as the code has it.  Once [run_esptool] has created the worker
    and its thread, [accept] (and with it [write_finished], the end of a
    successful run) and [abort] do the same three things to them before
    closing the dialog: [stop] sets the worker's flag and the shared flag
    to [False], the thread is asked to quit and is waited for with the
    bound 2000; they differ in the result code only. *)
Theorem accept_and_abort_share_teardown
  (d : FlashingDialog.t) (w : ESPWorker.t) (th : QThread) :
  espworker d = Some w ->
  espthread d = Some th ->
  exists torn done_ok,
    stop_quit_wait d = inr torn /\
    abort d = inr (done Rejected torn) /\
    accept d = inr (done Accepted torn) /\
    write_finished d = inr done_ok /\
    result done_ok = Some Accepted /\
    (forall x, x = torn \/ x = done_ok ->
       espworker x = Some (set_continue_flag false w) /\
       continue_flag (set_continue_flag false w) = false /\
       sw_continue_flag (proc x) = false /\
       sw_writes (proc x) = sw_writes (proc d) ++ [false] /\
       thread_ops x = thread_ops d ++ [op_quit; op_wait 2000] /\
       (blocked x <= blocked d + 2000)%N).
Proof.
  intros Hw Hth.
  destruct (stop_quit_wait_spec d w th Hw Hth)
    as (torn & E & W & P & O & B & _ & _).
  assert (Hw' : espworker (setValue 100 d) = Some w) by exact Hw.
  assert (Hth' : espthread (setValue 100 d) = Some th) by exact Hth.
  destruct (stop_quit_wait_spec (setValue 100 d) w th Hw' Hth')
    as (torn' & E' & W' & P' & O' & B' & _ & _).
  exists torn, (done Accepted torn').
  unfold abort, accept, write_finished, accept, reject. rewrite E, E'.
  do 5 (split; [reflexivity|]).
  intros x [-> | ->]; cbn; rewrite ?P, ?P';
    repeat split; try assumption; try reflexivity; cbn in *; lia.
Qed.

Lemma accept_and_abort_share_teardown_witness :
  exists torn done_ok,
    stop_quit_wait (flashing_dialog (Some 12000%N)) = inr torn /\
    abort (flashing_dialog (Some 12000%N)) = inr (done Rejected torn) /\
    accept (flashing_dialog (Some 12000%N)) = inr (done Accepted torn) /\
    write_finished (flashing_dialog (Some 12000%N)) = inr done_ok /\
    result done_ok = Some Accepted /\
    (forall x, x = torn \/ x = done_ok ->
       espworker x = Some (set_continue_flag false
                             (ESPWorker.init "/dev/ttyUSB0" "tasmota.bin"
                                false true false)) /\
       continue_flag (set_continue_flag false
                        (ESPWorker.init "/dev/ttyUSB0" "tasmota.bin"
                           false true false)) = false /\
       sw_continue_flag (proc x) = false /\
       sw_writes (proc x) =
         sw_writes (proc (flashing_dialog (Some 12000%N))) ++ [false] /\
       thread_ops x =
         thread_ops (flashing_dialog (Some 12000%N)) ++ [op_quit; op_wait 2000] /\
       (blocked x <= blocked (flashing_dialog (Some 12000%N)) + 2000)%N).
Proof.
  apply (accept_and_abort_share_teardown (flashing_dialog (Some 12000%N))
           (ESPWorker.init "/dev/ttyUSB0" "tasmota.bin" false true false)
           {| quit_requested := false; busy_for := Some 12000%N |});
    reflexivity.
Defined.

(** C10 as stated fails: not every exit path tears the worker down.  The
    path of [port_error] ([error]) and a plain [reject] close the dialog of
    a running worker without [stop], [quit] or [wait]: the worker keeps its
    [continue_flag], the shared flag is not written, and the thread is
    neither asked to quit nor waited for. *)
Lemma error_path_skips_teardown :
  let d := flashing_dialog (Some 12000%N) in
  let closed := error "Failed to connect to ESP8266" d in
  result closed = Some Rejected /\
  espworker closed
  = Some (ESPWorker.init "/dev/ttyUSB0" "tasmota.bin" false true false) /\
  sw_writes (proc closed) = [] /\
  thread_ops closed = [op_start] /\
  blocked closed = 0%N /\
  result (reject d) = Some Rejected /\
  espworker (reject d) = espworker d /\
  thread_ops (reject d) = [op_start].
Proof. cbv zeta; repeat split; reflexivity. Qed.

(** After [run_esptool], with no error recorded, [abort] returns, having
    blocked the dialog's thread for at most 2000 more milliseconds, whatever
    the worker is doing, and the main window then reports the abort. *)
Lemma abort_after_run_esptool (d : FlashingDialog.t) (w : ESPWorker.t) (th : QThread) :
  espworker d = Some w ->
  espthread d = Some th ->
  error_msg d = None ->
  exists d',
    abort d = inr d' /\
    (blocked d' <= blocked d + 2000)%N /\
    sw_continue_flag (proc d') = false /\
    result d' = Some Rejected /\
    present d' = aborted_by_user.
Proof.
  intros Hw Hth Herr.
  destruct (stop_quit_wait_spec d w th Hw Hth)
    as (torn & E & _ & P & _ & B & M & _).
  exists (reject torn). unfold abort. rewrite E.
  repeat split; cbn; try lia.
  - rewrite P; reflexivity.
  - unfold present, exec_; cbn. rewrite M, Herr. reflexivity.
Qed.

(** C8 (code defect).  In mode 1 or 2 the dialog downloads the image before
    it creates the worker, with its Abort button already connected: [abort]
    pressed during the download fails on [self.espworker], which does not
    exist yet, and nothing is stopped, waited for or rejected. *)
Theorem abort_during_download_fails
  (file pt : string) (bk er vf : bool) (p : Proc) (busy : option N) :
  let d1 := FlashingDialog.init (downloading_parent 1 file pt bk er vf) p busy in
  let d2 := FlashingDialog.init (downloading_parent 2 file pt bk er vf) p busy in
  espworker d1 = None /\ result d1 = None /\
  abort d1 = inl (AttributeError "espworker") /\
  espworker d2 = None /\ result d2 = None /\
  abort d2 = inl (AttributeError "espworker").
Proof. cbv zeta; repeat split; reflexivity. Qed.

(** A successful run of the sample dialog: [write_finished] closes it with
    [Accepted], and the main window reports success. *)
Example successful_run_is_presented :
  exists d,
    write_finished (flashing_dialog (Some 12000%N)) = inr d /\
    present d = information "Done" "Flashing successful! Power cycle the device.".
Proof. eexists; split; reflexivity. Qed.

(** An error with a text is shown as an error, with its text. *)
Lemma error_with_text_is_presented (d : FlashingDialog.t) (c : ascii) (m : string) :
  present (error (String c m) d) = critical "Error" (String c m).
Proof. reflexivity. Qed.

(** C7 (code defect).  A write that fails with an exception whose text is
    empty makes the worker emit [port_error] with the empty string; the
    dialog stores it and is rejected, and the main window, which tests the
    stored text for truth, reports an abort by the user. *)
Theorem empty_error_is_presented_as_abort
  (pt bf : string) (er vf : bool) (now : datetime) (d : FlashingDialog.t) :
  let w := ESPWorker.init pt bf false er vf in
  let drv : Driver := fun _ _ => raises (SerialException EmptyString) in
  emitted (snd (snd (run drv now w))) = [port_error EmptyString] /\
  error_msg (error EmptyString d) = Some EmptyString /\
  present (error EmptyString d) = aborted_by_user.
Proof.
  cbv zeta; repeat split; reflexivity.
Qed.

(** While less than the whole image has arrived, the value computed is 0;
    it is 100 when all of it has. *)
Lemma bin_progress_partial (recv total : Z) :
  (0 <= recv < total)%Z -> bin_progress recv total = inr 0%Z.
Proof.
  intros H. unfold bin_progress.
  destruct (Z.eqb_spec total 0); [lia|].
  rewrite Z.div_small by lia. reflexivity.
Qed.

Lemma bin_progress_complete (total : Z) :
  (0 < total)%Z -> bin_progress total total = inr 100%Z.
Proof.
  intros H. unfold bin_progress.
  destruct (Z.eqb_spec total 0); [lia|].
  rewrite Z.div_same by lia. reflexivity.
Qed.

(** C5 (code defect).  With 50 bytes of 100 received the bar is set to 0,
    where the proportion is 50; a total of 0 raises [ZeroDivisionError], and
    the total -1 that stands for an unknown length yields a value too, a
    negative one. *)
Theorem half_received_reports_zero (recv : Z) (d : FlashingDialog.t) :
  updateBinProgress 50 100 d = inr (setValue 0 d) /\
  (50 * 100 / 100 = 50)%Z /\
  updateBinProgress recv 0 d = inl ZeroDivisionError /\
  bin_progress 512 (-1) = inr (-51200)%Z.
Proof. repeat split; reflexivity. Qed.

End DialogFacts.

(** * Properties of the serial listener *)

Module ListenerFacts.
Import Tasmotizer.

(** What the pattern denotes: after the words [IP address ] come four
    groups of one to three digits, separated by dots. *)
Definition ip_prefix : text := text_of_string "IP address ".

Definition digit_group (nd : N -> bool) (g : text) : Prop :=
  (1 <= List.length g <= 3)%nat /\ forallb (is_digit nd) g = true.

(** [k + 1] groups separated by [k] dots. *)
Fixpoint dotted (nd : N -> bool) (k : nat) (ip : text) : Prop :=
  match k with
  | O => digit_group nd ip
  | S k' =>
      exists g rest,
        ip = g ++ 46%N :: rest /\ digit_group nd g /\ dotted nd k' rest
  end.

(** The pattern occurs in [s] after the first [n] code points, with [ip] as
    its group. *)
Definition occurs_at (nd : N -> bool) (n : nat) (ip s : text) : Prop :=
  dotted nd 3 ip /\
  exists pre post,
    s = pre ++ ip_prefix ++ ip ++ post /\ List.length pre = n.

Definition occurs (nd : N -> bool) (s : text) : Prop :=
  exists n ip, occurs_at nd n ip s.

Section Matcher.

Variable nd : N -> bool.

Lemma digit_prefixes_sound (n : nat) :
  forall s d r,
    In (d, r) (digit_prefixes nd n s) ->
    s = d ++ r /\ (1 <= List.length d <= n)%nat /\
    forallb (is_digit nd) d = true.
Proof.
  induction n as [|n IH]; intros s d r; cbn; [intros []|].
  destruct s as [|c s']; [intros []|].
  destruct (is_digit nd c) eqn:Hc; [|intros []].
  intros H; apply in_app_or in H; destruct H as [H | [H | []]].
  - apply in_map_iff in H; destruct H as ((d', r') & Heq & Hin).
    cbn in Heq; inversion Heq; subst d r.
    destruct (IH _ _ _ Hin) as (-> & Hl & Hd).
    cbn. rewrite Hc, Hd. repeat split; lia.
  - inversion H; subst d r. cbn. rewrite Hc. repeat split; lia.
Qed.

Lemma digit_prefixes_head (g : text) :
  forallb (is_digit nd) g = true ->
  g <> [] ->
  forall n r,
    (List.length g <= n)%nat ->
    exists tl, digit_prefixes nd n (g ++ 46%N :: r) = (g, 46%N :: r) :: tl.
Proof.
  induction g as [|c g IH]; intros Hd Hne n r Hn; [congruence|].
  cbn in Hd; apply andb_true_iff in Hd; destruct Hd as [Hc Hd].
  destruct n as [|n]; cbn in Hn; [lia|].
  cbn. rewrite Hc.
  destruct g as [|c' g'].
  - exists []. cbn.
    destruct n; reflexivity.
  - destruct (IH Hd ltac:(discriminate) n r ltac:(cbn in *; lia)) as (tl & E).
    rewrite E. cbn. eexists; reflexivity.
Qed.

Lemma digit_prefixes_some (c : N) (s : text) (n : nat) :
  is_digit nd c = true ->
  exists dr tl, digit_prefixes nd (S n) (c :: s) = dr :: tl.
Proof.
  intros Hc. cbn. rewrite Hc.
  destruct (map _ _ ++ _) as [|dr tl] eqn:E.
  - apply app_eq_nil in E; destruct E as [_ E]; discriminate.
  - eauto.
Qed.

Lemma first_some_sound {A B : Type} (f : A -> option B) (l : list A) (b : B) :
  first_some f l = Some b -> exists a, In a l /\ f a = Some b.
Proof.
  induction l as [|a l IH]; cbn; [discriminate|].
  destruct (f a) eqn:E.
  - intros [= <-]. exists a; auto.
  - intros H; destruct (IH H) as (a' & Hin & Ha'). exists a'; auto.
Qed.

Lemma match_groups_sound (k : nat) :
  forall s ip,
    match_groups nd k s = Some ip ->
    dotted nd k ip /\ exists post, s = ip ++ post.
Proof.
  induction k as [|k IH]; intros s ip H; cbn [match_groups] in H;
    apply first_some_sound in H; destruct H as ((d, r) & Hin & Hf);
    apply digit_prefixes_sound in Hin; destruct Hin as (-> & Hl & Hd);
    cbn in Hf.
  - injection Hf as <-. split; [split; assumption | exists r; reflexivity].
  - destruct r as [|c r]; [discriminate|].
    destruct (N.eqb_spec c 46); [subst c | discriminate].
    destruct (match_groups nd k r) as [ip'|] eqn:E; [|discriminate].
    cbn in Hf; injection Hf as <-.
    destruct (IH _ _ E) as (Hdot & post & ->).
    split.
    + cbn. exists d, ip'. repeat split; tauto.
    + exists post. rewrite <- app_assoc. reflexivity.
Qed.

Lemma match_groups_complete (k : nat) :
  forall ip post,
    dotted nd k ip -> exists ip', match_groups nd k (ip ++ post) = Some ip'.
Proof.
  induction k as [|k IH]; intros ip post H; cbn in H.
  - destruct H as (Hl & Hd).
    destruct ip as [|c g]; cbn in Hl; [lia|].
    cbn in Hd; apply andb_true_iff in Hd; destruct Hd as [Hc _].
    destruct (digit_prefixes_some c (g ++ post) 2 Hc) as (dr & tl & E).
    cbn [match_groups app]. rewrite E. cbn. eauto.
  - destruct H as (g & rest & -> & (Hl & Hd) & Hrest).
    destruct (IH rest post Hrest) as (ip' & E).
    assert (Hne : g <> []) by (destruct g; cbn in Hl; [lia | discriminate]).
    destruct (digit_prefixes_head g Hd Hne 3 (rest ++ post) ltac:(lia))
      as (tl & Hhead).
    rewrite <- app_assoc. cbn [match_groups app].
    rewrite Hhead. cbn. rewrite E. cbn. eauto.
Qed.

Lemma strip_prefix_app (p r : text) : strip_prefix p (p ++ r) = Some r.
Proof.
  induction p as [|a p IH]; cbn; [reflexivity|].
  rewrite N.eqb_refl. exact IH.
Qed.

Lemma strip_prefix_sound (p : text) :
  forall s r, strip_prefix p s = Some r -> s = p ++ r.
Proof.
  induction p as [|a p IH]; intros s r; cbn.
  - intros [= ->]; reflexivity.
  - destruct s as [|b s]; [discriminate|].
    destruct (N.eqb_spec a b); [subst b | discriminate].
    intros H; rewrite (IH _ _ H); reflexivity.
Qed.

Lemma match_here_sound (s ip : text) :
  match_here nd s = Some ip -> occurs_at nd 0 ip s.
Proof.
  unfold match_here, occurs_at. fold ip_prefix.
  destruct (strip_prefix ip_prefix s) as [r|] eqn:E; [|discriminate].
  intros H. apply strip_prefix_sound in E.
  apply match_groups_sound in H; destruct H as (Hdot & post & ->).
  split; [assumption|]. exists [], post; split; [exact E | reflexivity].
Qed.

Lemma match_here_complete (s ip : text) :
  occurs_at nd 0 ip s -> exists ip', match_here nd s = Some ip'.
Proof.
  intros (Hdot & pre & post & -> & Hpre).
  destruct pre; [|discriminate]. cbn [app].
  unfold match_here. fold ip_prefix. rewrite strip_prefix_app.
  apply match_groups_complete; assumption.
Qed.

Lemma occurs_at_tail (n : nat) (c : N) (s ip : text) :
  occurs_at nd (S n) ip (c :: s) <-> occurs_at nd n ip s.
Proof.
  unfold occurs_at; split; intros (Hdot & pre & post & E & Hl);
    (split; [assumption|]).
  - destruct pre as [|c' pre]; [discriminate|].
    rewrite <- app_comm_cons in E. injection E as -> ->.
    cbn in Hl; injection Hl as Hl.
    exists pre, post; auto.
  - exists (c :: pre), post. rewrite E.
    split; [reflexivity | cbn; congruence].
Qed.

Lemma digit_prefixes_longest (n : nat) :
  forall s d r tl d' post,
    digit_prefixes nd n s = (d, r) :: tl ->
    s = d' ++ post ->
    forallb (is_digit nd) d' = true ->
    (List.length d' <= n)%nat ->
    (List.length d' <= List.length d)%nat.
Proof.
  induction n as [|n IH]; intros s d r tl d' post Hp Hs Hd Hn.
  - destruct d'; cbn in Hn; [cbn; lia | lia].
  - destruct d' as [|c d'']; [cbn; lia|].
    subst s. cbn in Hd; apply andb_true_iff in Hd; destruct Hd as [Hc Hd].
    cbn in Hp. rewrite Hc in Hp.
    destruct (digit_prefixes nd n (d'' ++ post)) as [|[d0 r0] tl0] eqn:E.
    + cbn in Hp. injection Hp as <- <- <-.
      destruct d'' as [|c' d3]; [cbn; lia|].
      exfalso. cbn in Hd; apply andb_true_iff in Hd; destruct Hd as [Hc' _].
      destruct n as [|n']; [cbn in Hn; lia|].
      cbn in E. rewrite Hc' in E.
      destruct (map _ _) in E; discriminate.
    + cbn in Hp. injection Hp as <- <- <-.
      cbn [List.length fst]. apply le_n_S.
      apply (IH _ _ _ _ _ _ E eq_refl Hd). cbn in Hn; lia.
Qed.

(** Of the texts that match at the start of [s], [match_groups] gives the
    longest. *)
Lemma match_groups_longest (k : nat) :
  forall s ip ip' post,
    match_groups nd k s = Some ip ->
    dotted nd k ip' ->
    s = ip' ++ post ->
    (List.length ip' <= List.length ip)%nat.
Proof.
  induction k as [|k IH]; intros s ip ip' post Hm Hdot Hs.
  - cbn [match_groups] in Hm. cbn in Hdot. destruct Hdot as [Hl Hd].
    destruct (digit_prefixes nd 3 s) as [|[d r] tl] eqn:E; [discriminate|].
    cbn in Hm. injection Hm as <-.
    apply (digit_prefixes_longest 3 s d r tl ip' post E Hs Hd). lia.
  - cbn [dotted] in Hdot. destruct Hdot as (g & rest & -> & (Hl & Hd) & Hrest).
    subst s. rewrite <- app_assoc in Hm. cbn [app] in Hm.
    assert (Hne : g <> []) by (destruct g; cbn in Hl; [lia | discriminate]).
    destruct (digit_prefixes_head g Hd Hne 3 (rest ++ post) ltac:(lia))
      as (tl & Hhead).
    cbn [match_groups] in Hm. rewrite Hhead in Hm. cbn in Hm.
    destruct (match_groups_complete k rest post Hrest) as (ip0 & E0).
    rewrite E0 in Hm. cbn in Hm. injection Hm as <-.
    rewrite !length_app. cbn [List.length].
    pose proof (IH _ _ _ _ E0 Hrest eq_refl). lia.
Qed.

Lemma match_here_longest (s ip ip' : text) :
  match_here nd s = Some ip ->
  occurs_at nd 0 ip' s ->
  (List.length ip' <= List.length ip)%nat.
Proof.
  intros Hm (Hdot & pre & post & -> & Hpre).
  destruct pre; [|discriminate]. cbn [app] in Hm.
  unfold match_here in Hm. fold ip_prefix in Hm.
  rewrite strip_prefix_app in Hm.
  apply (match_groups_longest 3 _ _ _ _ Hm Hdot eq_refl).
Qed.

(** What [re.search] returns is, at the leftmost place where the pattern
    occurs, the longest text that matches there. *)
Lemma re_search_longest (s : text) :
  forall ip,
    re_search nd s = Some ip ->
    exists n,
      occurs_at nd n ip s /\
      (forall m ip', occurs_at nd m ip' s -> (n <= m)%nat) /\
      (forall ip', occurs_at nd n ip' s ->
                   (List.length ip' <= List.length ip)%nat).
Proof.
  induction s as [|c s IH]; intros ip; cbn [re_search].
  - destruct (match_here nd []) as [ip0|] eqn:E; [|discriminate].
    intros [= ->]. exists 0%nat.
    split; [apply match_here_sound, E|]. split; [lia|].
    intros ip' H'. apply (match_here_longest _ _ _ E H').
  - destruct (match_here nd (c :: s)) as [ip0|] eqn:E.
    + intros [= ->]. exists 0%nat.
      split; [apply match_here_sound, E|]. split; [lia|].
      intros ip' H'. apply (match_here_longest _ _ _ E H').
    + intros H. destruct (IH _ H) as (n & Hocc & Hleft & Hlong).
      exists (S n). split; [apply (proj2 (occurs_at_tail n c s ip)), Hocc|].
      split.
      * intros [|m] ip' Hm.
        -- destruct (match_here_complete _ _ Hm) as (ip'' & E'). congruence.
        -- apply (proj1 (occurs_at_tail m c s ip')) in Hm.
           specialize (Hleft _ _ Hm). lia.
      * intros ip' H'. apply (proj1 (occurs_at_tail n c s ip')) in H'.
        apply (Hlong _ H').
Qed.

(** [re.search] finds the leftmost occurrence of the pattern, and finds one
    whenever there is one. *)
Lemma re_search_sound (s : text) :
  forall ip,
    re_search nd s = Some ip ->
    exists n,
      occurs_at nd n ip s /\
      forall m ip', occurs_at nd m ip' s -> (n <= m)%nat.
Proof.
  induction s as [|c s IH]; intros ip; cbn [re_search].
  - destruct (match_here nd []) as [ip0|] eqn:E; [|discriminate].
    intros [= ->]. exists 0%nat; split; [apply match_here_sound, E | lia].
  - destruct (match_here nd (c :: s)) as [ip0|] eqn:E.
    + intros [= ->]. exists 0%nat; split; [apply match_here_sound, E | lia].
    + intros H. destruct (IH _ H) as (n & Hocc & Hleft).
      exists (S n); split; [apply (proj2 (occurs_at_tail n c s ip)), Hocc|].
      intros [|m] ip' Hm.
      * destruct (match_here_complete _ _ Hm) as (ip'' & E'). congruence.
      * apply (proj1 (occurs_at_tail m c s ip')) in Hm.
        specialize (Hleft _ _ Hm). lia.
Qed.

Lemma re_search_complete (s : text) :
  occurs nd s -> exists ip, re_search nd s = Some ip.
Proof.
  intros (n & ip & H). revert s H.
  induction n as [|n IH]; intros s H.
  - destruct (match_here_complete _ _ H) as (ip' & E).
    exists ip'. destruct s; cbn [re_search]; rewrite E; reflexivity.
  - destruct s as [|c s].
    + destruct H as (_ & pre & post & E & Hl).
      destruct pre; discriminate.
    + apply (proj1 (occurs_at_tail n c s ip)) in H.
      destruct (IH _ H) as (ip' & E).
      cbn [re_search]. destruct (match_here nd (c :: s)); eauto.
Qed.

Lemma re_search_none (s : text) :
  ~ occurs nd s -> re_search nd s = None.
Proof.
  intros H. destruct (re_search nd s) as [ip|] eqn:E; [|reflexivity].
  destruct (re_search_sound _ _ E) as (n & Hocc & _).
  exfalso; apply H; exists n, ip; exact Hocc.
Qed.

(** Once the port is closed no chunk is processed any more. *)
Lemma feed_closed (chunks : list bytes) (l : Listener) :
  port_open l = false -> feed nd chunks l = l.
Proof.
  revert l; induction chunks as [|c chunks IH]; intros l H; [reflexivity|].
  unfold feed in *; cbn. rewrite H. apply IH, H.
Qed.

End Matcher.

(** Bytes that are not UTF-8 leave the listener as it was. *)
Lemma undecodable_chunk_is_dropped (nd : N -> bool) (self : Listener) (cur : bytes) :
  str_utf8 (previous_reply self ++ cur) = None ->
  showCurrentIP nd cur self = self.
Proof. intros H. unfold showCurrentIP. rewrite H. reflexivity. Qed.

(** What [.replace("\r\n", "")] is to do: [has_crlf s] tells whether [s]
    holds a CR immediately followed by a LF, and [crlf_removed s r] that
    [r] is [s] without its CR LF pairs, found from left to right: the text
    before the first pair is kept, the pair is dropped, and the same is
    done to the text after it. *)
Fixpoint has_crlf (s : text) : bool :=
  match s with
  | [] => false
  | c :: t =>
      match t with
      | d :: _ => ((c =? 13) && (d =? 10))%N || has_crlf t
      | [] => false
      end
  end.

Inductive crlf_removed : text -> text -> Prop :=
| removed_none (s : text) :
    has_crlf s = false -> crlf_removed s s
| removed_first (a b r : text) :
    has_crlf a = false -> crlf_removed b r ->
    crlf_removed (a ++ 13%N :: 10%N :: b) (a ++ r).

Lemma has_crlf_cons (c d : N) (t : text) :
  has_crlf (c :: d :: t)
  = ((c =? 13) && (d =? 10))%N || has_crlf (d :: t).
Proof. reflexivity. Qed.

Lemma remove_crlf_none (s : text) :
  has_crlf s = false -> remove_crlf s = s.
Proof.
  induction s as [|c t IH]; [reflexivity|].
  destruct t as [|d t']; [reflexivity|].
  cbn [has_crlf remove_crlf]. intros H.
  apply orb_false_iff in H. destruct H as [Hp Ht].
  rewrite Hp. f_equal. apply IH, Ht.
Qed.

Lemma remove_crlf_first (a b : text) :
  has_crlf a = false ->
  remove_crlf (a ++ 13%N :: 10%N :: b) = a ++ remove_crlf b.
Proof.
  induction a as [|c a IH]; intros H; [reflexivity|].
  destruct a as [|d a'].
  - cbn [app remove_crlf]. rewrite andb_false_r.
    f_equal.
  - cbn [has_crlf] in H. apply orb_false_iff in H. destruct H as [Hp Ha].
    specialize (IH Ha).
    cbn [app remove_crlf] in *. rewrite Hp. f_equal. exact IH.
Qed.

(** [crlf_removed] fixes its result, and [remove_crlf] computes it. *)
Lemma crlf_removed_fun (s r : text) :
  crlf_removed s r -> r = remove_crlf s.
Proof.
  induction 1 as [s H | a b r Ha Hb IH].
  - symmetry. apply remove_crlf_none, H.
  - rewrite (remove_crlf_first a b Ha), IH. reflexivity.
Qed.

Lemma first_crlf (s : text) :
  has_crlf s = false \/
  exists a b, s = a ++ 13%N :: 10%N :: b /\ has_crlf a = false.
Proof.
  induction s as [|c t IH]; [left; reflexivity|].
  destruct t as [|d t']; [left; reflexivity|].
  destruct ((c =? 13) && (d =? 10))%N eqn:Hp.
  - right. apply andb_true_iff in Hp. destruct Hp as [Hc Hd].
    apply N.eqb_eq in Hc, Hd. subst c d.
    exists [], t'. split; reflexivity.
  - destruct IH as [Ht | (a & b & Hs & Ha)].
    + left. rewrite has_crlf_cons, Hp, Ht. reflexivity.
    + right. exists (c :: a), b. split; [rewrite Hs; reflexivity|].
      destruct a as [|d' a']; [reflexivity|].
      cbn [app] in Hs. injection Hs as -> ->.
      rewrite has_crlf_cons, Hp. exact Ha.
Qed.

Lemma remove_crlf_spec (s : text) : crlf_removed s (remove_crlf s).
Proof.
  remember (List.length s) as n eqn:Hn.
  revert s Hn. induction n as [n IH] using lt_wf_ind. intros s ->.
  destruct (first_crlf s) as [H | (a & b & -> & Ha)].
  - rewrite (remove_crlf_none s H). apply removed_none, H.
  - rewrite (remove_crlf_first a b Ha). apply removed_first; [exact Ha|].
    apply (IH (List.length b)); [|reflexivity].
    rewrite length_app. cbn [List.length]. lia.
Qed.

Lemma app_same_length {A : Type} (l1 : list A) :
  forall l2 r1 r2,
    l1 ++ r1 = l2 ++ r2 -> List.length l1 = List.length l2 ->
    l1 = l2 /\ r1 = r2.
Proof.
  induction l1 as [|x l1 IH]; intros [|y l2] r1 r2 H Hl;
    try discriminate; [split; [reflexivity | exact H]|].
  cbn in H, Hl. injection H as -> H. injection Hl as Hl.
  destruct (IH _ _ _ H Hl) as [-> ->]. split; reflexivity.
Qed.

(** Two texts of the same length that match at the same place are the same
    text: the place and the length fix what is shown. *)
Lemma occurs_at_fixes_text (nd : N -> bool) (n : nat) (ip ip' s : text) :
  occurs_at nd n ip s -> occurs_at nd n ip' s ->
  List.length ip' = List.length ip -> ip' = ip.
Proof.
  intros (_ & pre & post & Hs & Hn) (_ & pre' & post' & Hs' & Hn') Hl.
  rewrite Hs in Hs'.
  destruct (app_same_length _ _ _ _ Hs' ltac:(congruence)) as [_ H1].
  destruct (app_same_length _ _ _ _ H1 eq_refl) as [_ H2].
  destruct (app_same_length _ _ _ _ H2 ltac:(congruence)) as [H3 _].
  congruence.
Qed.

(** C6, as the code has it.  The slot looks at a window of two chunks: the
    chunk kept from the previous call followed by the current one.  If the
    window is not UTF-8, nothing changes.  Otherwise it is decoded and its
    CR LF pairs are removed; if the pattern occurs in what is left, the
    text shown is, at the leftmost place where the pattern occurs, the
    longest text that matches there, the port is closed and later chunks
    are not read; if the pattern does not occur, the current chunk alone
    is kept for the next call and the bytes before it are dropped. *)
Theorem two_chunk_window
  (nd : N -> bool) (self : Listener) (cur : bytes) :
  match str_utf8 (previous_reply self ++ cur) with
  | None => showCurrentIP nd cur self = self
  | Some decoded =>
      exists reply,
        crlf_removed decoded reply /\
        (occurs nd reply ->
         exists n ip,
           occurs_at nd n ip reply /\
           (forall m ip', occurs_at nd m ip' reply -> (n <= m)%nat) /\
           (forall ip', occurs_at nd n ip' reply ->
                        (List.length ip' <= List.length ip)%nat) /\
           showCurrentIP nd cur self =
             {| previous_reply := previous_reply self;
                port_open := false;
                shown := shown self ++ [text_of_string "Device IP: " ++ ip] |} /\
           (forall more,
              port_open self = true ->
              feed nd (cur :: more) self = showCurrentIP nd cur self)) /\
        (~ occurs nd reply ->
         showCurrentIP nd cur self =
           {| previous_reply := cur;
              port_open := port_open self;
              shown := shown self |})
  end.
Proof.
  destruct (str_utf8 (previous_reply self ++ cur)) as [decoded|] eqn:Hdec;
    [|unfold showCurrentIP; rewrite Hdec; reflexivity].
  exists (remove_crlf decoded). split; [apply remove_crlf_spec|].
  set (reply := remove_crlf decoded).
  unfold showCurrentIP. rewrite Hdec. fold reply. split.
  - intros Hocc.
    destruct (re_search_complete nd reply Hocc) as (ip & E).
    destruct (re_search_longest nd reply ip E) as (n & Hn & Hleft & Hlong).
    exists n, ip. rewrite E.
    split; [exact Hn|]. split; [exact Hleft|]. split; [exact Hlong|].
    split; [reflexivity|].
    intros more Hopen. unfold feed; cbn [fold_left]. rewrite Hopen.
    unfold showCurrentIP. rewrite Hdec. fold reply. rewrite E.
    apply (feed_closed nd more). reflexivity.
  - intros Hno. rewrite (re_search_none nd reply Hno). reflexivity.
Qed.

(** A listener that has kept a first chunk, and the chunk that follows. *)
Definition after_first_chunk : Listener :=
  {| previous_reply := bytes_of_string "wifi: IP addr";
     port_open := true;
     shown := [] |}.

Definition second_chunk : bytes := bytes_of_string "ess 192.168.1.50 up".

(** The address of the example is found in the window of the two chunks. *)
Example address_split_over_two_chunks (nd : N -> bool) :
  shown (feed nd [previous_reply after_first_chunk; second_chunk] listening)
  = [text_of_string "Device IP: 192.168.1.50"] /\
  port_open (feed nd [previous_reply after_first_chunk; second_chunk] listening)
  = false.
Proof. split; reflexivity. Qed.

(** An address that arrives in three chunks. *)
Definition three_chunks : list bytes :=
  map bytes_of_string ["IP address 192."; "168.1"; ".50 online"].

(** C6 as stated fails: the three chunks together hold the pattern, and a
    search of everything received finds the address, but the slot, which
    keeps one chunk only, shows nothing and leaves the port open. *)
Lemma split_over_three_chunks_is_missed :
  (forall nd,
     exists whole,
       str_utf8 (List.concat three_chunks) = Some whole /\
       re_search nd (remove_crlf whole)
       = Some (text_of_string "192.168.1.50")) /\
  (forall nd,
     shown (feed nd three_chunks listening) = [] /\
     port_open (feed nd three_chunks listening) = true /\
     previous_reply (feed nd three_chunks listening)
     = bytes_of_string ".50 online").
Proof.
  split; intros nd.
  - eexists; split; reflexivity.
  - repeat split; reflexivity.
Qed.

End ListenerFacts.

(** * More about the worker *)

Module ESPWorkerMore.
Import ESPWorker ESPWorkerFacts.

#[local] Arguments command_base : simpl never.
#[local] Arguments command_backup : simpl never.
#[local] Arguments command_write : simpl never.

(** The calls of one [execute], whatever the driver does and whenever Abort
    is pressed: none if the worker was stopped beforehand; the write alone
    if no backup is asked for; otherwise the backup, followed or not by the
    write.  So the driver is called at most twice, each stage at most once,
    and the write never comes before the backup that was asked for. *)
Theorem execute_call_shapes
  (drv : Driver) (now : datetime) (w : t) (p : Proc) :
  exists cs,
    calls (snd (snd (execute drv now (w, p)))) = calls p ++ cs /\
    (continue_flag w = false -> cs = []) /\
    (continue_flag w = true -> backup w = false ->
     cs = [write_command_line w]) /\
    (continue_flag w = true -> backup w = true ->
     cs = [backup_command_line now w] \/
     cs = [backup_command_line now w; write_command_line w]).
Proof.
  destruct w as [pt bf bk er vf cf].
  destruct bk, cf; unfold_execute; repeat any_reply drv;
    try (exists []; rewrite app_nil_r; split; [reflexivity|];
         repeat split; intros; try discriminate; reflexivity);
    try (eexists [_]; split; [reflexivity|];
         repeat split; intros; try discriminate;
         destruct er, vf; flatten_commands; auto);
    try (eexists [_; _]; split; [rewrite <- app_assoc; reflexivity|];
         repeat split; intros; try discriminate;
         destruct er, vf; flatten_commands; auto).
Qed.

(** A worker on which [stop] ran before its thread got to [execute]: the
    slot returns without calling the driver and without emitting a signal,
    the worker stays stopped, and the shared flag of [esptool.sw], which
    [stop] had set to [False], is [True] again. *)
Theorem stopped_worker_does_nothing
  (drv : Driver) (now : datetime) (w : t) (p : Proc) :
  exists p',
    execute drv now (stop (w, p)) = (Ok tt, (set_continue_flag false w, p')) /\
    calls p' = calls p /\
    emitted p' = emitted p /\
    sw_continue_flag p' = true /\
    sw_writes p' = sw_writes p ++ [false; true].
Proof.
  destruct w as [pt bf bk er vf cf].
  unfold stop. destruct bk; unfold_execute;
    (eexists; split; [reflexivity|]); cbn;
    rewrite <- app_assoc; auto.
Qed.

Lemma one_terminal_signal_witness :
  List.length
    (terminal_signals (snd (snd (run always_returns sample_now sample_worker))))
  = 1.
Proof.
  apply (one_terminal_signal_when_backup_returns always_returns sample_now
           sample_worker).
  - intros n c; split; reflexivity.
  - reflexivity.
  - reflexivity.
Defined.

Ltac reply_eqn drv :=
  match goal with
  | |- context [drv ?n ?c] =>
      let E := fresh "E" in
      destruct (drv n c) as [[|] [[?|?|?| |?]|]] eqn:E; cbn
  end.

(** [finished] is emitted only by a run whose write call was made and
    returned: the slot then returns normally, the write command line is
    the last call, the driver raised nothing on it, and [finished] is the
    last signal. *)
Theorem finished_means_write_returned
  (drv : Driver) (now : datetime) (w : t) :
  In finished (emitted (snd (snd (run drv now w)))) ->
  fst (run drv now w) = Ok tt /\
  exists n before,
    calls (snd (snd (run drv now w))) = before ++ [write_command_line w] /\
    List.length before = n /\
    raised (drv n (write_command_line w)) = None /\
    exists signals,
      emitted (snd (snd (run drv now w))) = signals ++ [finished] /\
      ~ In finished signals.
Proof.
  destruct w as [pt bf bk er vf cf].
  destruct bk, cf, er, vf; unfold_execute; repeat reply_eqn drv; intros Hin;
    try (repeat destruct Hin as [Hin|Hin]; try discriminate; contradiction);
    (split; [reflexivity|]);
    unfold write_command_line, write_options, command_base, command_write,
      command_backup in *;
    cbn in *;
    (first [ exists 0%nat, []; split; [reflexivity|]
           | eexists 1%nat, [_]; split; [reflexivity|] ]);
    (split; [reflexivity|]);
    (split; [match goal with H : drv _ _ = _ |- _ => rewrite H; reflexivity end|]);
    (first [ exists []; split; [reflexivity|]
           | eexists [_]; split; [reflexivity|]
           | eexists [_; _]; split; [reflexivity|] ]);
    cbn; intuition discriminate.
Qed.

Lemma finished_means_write_returned_witness :
  fst (run always_returns sample_now sample_worker) = Ok tt /\
  exists n before,
    calls (snd (snd (run always_returns sample_now sample_worker)))
    = before ++ [write_command_line sample_worker] /\
    List.length before = n /\
    raised (always_returns n (write_command_line sample_worker)) = None /\
    exists signals,
      emitted (snd (snd (run always_returns sample_now sample_worker)))
      = signals ++ [finished] /\
      ~ In finished signals.
Proof.
  apply (finished_means_write_returned always_returns sample_now sample_worker).
  cbn. right; left; reflexivity.
Defined.

(** An exception that [execute] does not handle leaves the slot from the
    call that raised it: it is neither of the two handled kinds, no
    [finished] is emitted, and a run without backup emits no signal at
    all, so that the dialog is told nothing. *)
Theorem unhandled_exception_leaves_slot
  (drv : Driver) (now : datetime) (w : t) (e : Exn) :
  fst (run drv now w) = Exc e ->
  caught_by_execute e = false /\
  (exists before c,
     calls (snd (snd (run drv now w))) = before ++ [c] /\
     raised (drv (List.length before) c) = Some e) /\
  ~ In finished (emitted (snd (snd (run drv now w)))) /\
  (backup w = false -> emitted (snd (snd (run drv now w))) = []).
Proof.
  destruct w as [pt bf bk er vf cf].
  destruct bk, cf, er, vf; unfold_execute; repeat reply_eqn drv;
    intros Hexc; try discriminate; injection Hexc as <-;
    (split; [reflexivity|]);
    (split;
     [ first [ exists []; eexists; split; [reflexivity|]; cbn;
               match goal with H : drv _ _ = _ |- _ => rewrite H; reflexivity end
             | eexists [_]; eexists; split; [reflexivity|]; cbn;
               match goal with H : drv _ _ = _ |- _ => rewrite H; reflexivity end ]
     | ]);
    cbn; intuition discriminate.
Qed.

Lemma unhandled_exception_leaves_slot_witness :
  let drv : Driver := fun _ _ => raises (OtherException "boom") in
  let w := init "COM3" "tasmota.bin" false true false in
  caught_by_execute (OtherException "boom") = false /\
  (exists before c,
     calls (snd (snd (run drv sample_now w))) = before ++ [c] /\
     raised (drv (List.length before) c) = Some (OtherException "boom")) /\
  ~ In finished (emitted (snd (snd (run drv sample_now w)))) /\
  (backup w = false -> emitted (snd (snd (run drv sample_now w))) = []).
Proof.
  apply (unhandled_exception_leaves_slot
           (fun _ _ => raises (OtherException "boom")) sample_now
           (init "COM3" "tasmota.bin" false true false)
           (OtherException "boom")).
  reflexivity.
Defined.

End ESPWorkerMore.

(** * The other slots of the dialog *)

Module DialogSlots.
Import FlashingDialog Tasmotizer.

(** [self.bin_reply.error()] with [errorString()]. *)
Inductive NetworkError : Type :=
| NoError
| OtherError (errorString : string).

(** The dialog with the widgets and the data that the remaining slots use:
    the text of [self.task], whether the button box is enabled, the
    interval of [self.erase_timer] while it runs, the lines of
    [self.output], [self.bin_data], the files written (latest first) and
    the message boxes shown (oldest first). *)
Record t : Type := {
  dlg : FlashingDialog.t;
  task : string;
  btns_enabled : bool;
  erase_timer : option N;
  output : list string;
  bin_data : bytes;
  files : list (string * bytes);
  boxes : list MessageBox
}.

Definition with_dlg (f : FlashingDialog.t -> FlashingDialog.t) (ws : t) : t :=
  {| dlg := f (dlg ws); task := task ws; btns_enabled := btns_enabled ws;
     erase_timer := erase_timer ws; output := output ws;
     bin_data := bin_data ws; files := files ws; boxes := boxes ws |}.

Definition setText (s : string) (ws : t) : t :=
  {| dlg := dlg ws; task := s; btns_enabled := btns_enabled ws;
     erase_timer := erase_timer ws; output := output ws;
     bin_data := bin_data ws; files := files ws; boxes := boxes ws |}.

Definition setEnabled (b : bool) (ws : t) : t :=
  {| dlg := dlg ws; task := task ws; btns_enabled := b;
     erase_timer := erase_timer ws; output := output ws;
     bin_data := bin_data ws; files := files ws; boxes := boxes ws |}.

Definition set_timer (tm : option N) (ws : t) : t :=
  {| dlg := dlg ws; task := task ws; btns_enabled := btns_enabled ws;
     erase_timer := tm; output := output ws;
     bin_data := bin_data ws; files := files ws; boxes := boxes ws |}.

(** [__init__], with the widgets. *)
Definition init (parent : Parent) (p : ESPWorker.Proc) (busy : option N) : t :=
  {| dlg := FlashingDialog.init parent p busy;
     task := if ((mode parent =? 1) || (mode parent =? 2))%Z
             then "Downloading binary from thehackbox.org..."
             else EmptyString;
     btns_enabled := true;
     erase_timer := None;
     output := [];
     bin_data := [];
     files := [];
     boxes := [] |}.

(** [appendBinFile], [chunk] being what [self.bin_reply.readAll()]
    returns. *)
Definition appendBinFile (chunk : bytes) (ws : t) : t :=
  {| dlg := dlg ws; task := task ws; btns_enabled := btns_enabled ws;
     erase_timer := erase_timer ws; output := output ws;
     bin_data := bin_data ws ++ chunk; files := files ws;
     boxes := boxes ws |}.

(** [saveBinFile].  [can_open] tells whether [open(self.bin_file, "wb")]
    succeeds; it raises an [OSError] otherwise. *)
Definition saveBinFile (err : NetworkError) (can_open : bool)
    (parent : Parent) (busy : option N) (ws : t) : Exn + t :=
  match err with
  | NoError =>
      if can_open then
        let ws1 :=
          {| dlg := dlg ws; task := task ws; btns_enabled := btns_enabled ws;
             erase_timer := erase_timer ws; output := output ws;
             bin_data := bin_data ws;
             files := (FlashingDialog.bin_file (dlg ws), bin_data ws) :: files ws;
             boxes := boxes ws |} in
        let ws2 := with_dlg (setValue 0) ws1 in
        let ws3 := setText "Connecting to ESP..." ws2 in
        inr (with_dlg (run_esptool parent busy) ws3)
      else inl (OtherException "OSError")
  | OtherError msg =>
      inr {| dlg := dlg ws; task := task ws; btns_enabled := btns_enabled ws;
             erase_timer := erase_timer ws; output := output ws;
             bin_data := bin_data ws; files := files ws;
             boxes := boxes ws ++ [critical "Network error" msg] |}
  end.

Definition read_start (ws : t) : t :=
  setText "Saving image backup..." (with_dlg (setValue 0) ws).

Definition read_progress (value : Z) (ws : t) : t :=
  with_dlg (setValue value) ws.

Definition read_finished (ws : t) : t :=
  setText "Writing done." (with_dlg (setValue 100) ws).

Definition erase_start (ws : t) : t :=
  set_timer (Some 1000%N)
    (setText "Erasing flash... (this may take a while)"
       (with_dlg (setValue 0) (setEnabled false ws))).

(** The slot of the timer: [setValue(value() + 5)]. *)
Definition erase_progress (ws : t) : t :=
  with_dlg (setValue (progress_value (dlg ws) + 5)) ws.

Definition erase_finished (ws : t) : t :=
  setEnabled true
    (set_timer None
       (setText "Erasing done." (with_dlg (setValue 100) ws))).

Definition write_start (ws : t) : t :=
  setText "Writing image..." (with_dlg (setValue 0) ws).

Definition write_progress (value : Z) (ws : t) : t :=
  with_dlg (setValue value) ws.

Definition write_finished (ws : t) : Exn + t :=
  let ws1 := setText "Writing done." (with_dlg (setValue 100) ws) in
  match FlashingDialog.accept (dlg ws1) with
  | inl e => inl e
  | inr d => inr (with_dlg (fun _ => d) ws1)
  end.

Definition process_output (entry : string) (ws : t) : t :=
  {| dlg := dlg ws; task := task ws; btns_enabled := btns_enabled ws;
     erase_timer := erase_timer ws; output := output ws ++ [entry];
     bin_data := bin_data ws; files := files ws; boxes := boxes ws |}.

(** The chunks of a download, oldest first. *)
Definition download (chunks : list bytes) (ws : t) : t :=
  fold_left (fun w c => appendBinFile c w) chunks ws.

(** What [self.bin_reply] signals while the image arrives: [readyRead]
    with the chunk that [readAll()] then returns, or [downloadProgress]
    with its two numbers. *)
Inductive ReplyEvent : Type :=
| readyRead (chunk : bytes)
| downloadProgress (recv total : Z).

(** The slots run for the events of the reply, oldest first:
    [appendBinFile] for [readyRead] and [updateBinProgress] for
    [downloadProgress].  Nothing handles an exception raised in a slot:
    the run ends there, the later events and [saveBinFile] are not
    reached. *)
Fixpoint receive (events : list ReplyEvent) (ws : t) : Exn + t :=
  match events with
  | [] => inr ws
  | readyRead chunk :: rest => receive rest (appendBinFile chunk ws)
  | downloadProgress recv total :: rest =>
      match updateBinProgress recv total (dlg ws) with
      | inl e => inl e
      | inr d => receive rest (with_dlg (fun _ => d) ws)
      end
  end.


(** [n] ticks of the erase timer. *)
Fixpoint erase_ticks (n : nat) (ws : t) : t :=
  match n with
  | O => ws
  | S n' => erase_progress (erase_ticks n' ws)
  end.

End DialogSlots.

Module DialogSlotsFacts.
Import FlashingDialog Tasmotizer DialogSlots.

(** While an image of known, positive length is arriving, the bar shows 0;
    it shows 100 once the last byte has arrived and nothing in between. *)
Theorem download_progress_all_or_nothing
  (recv total : Z) (d : FlashingDialog.t) :
  (0 <= recv <= total)%Z ->
  (0 < total)%Z ->
  updateBinProgress recv total d
  = inr (setValue (if (recv =? total)%Z then 100 else 0)%Z d).
Proof.
  intros Hr Ht. unfold updateBinProgress, bin_progress.
  destruct (Z.eqb_spec total 0); [lia|].
  destruct (Z.eqb_spec recv total) as [->|Hne].
  - rewrite Z.div_same by lia. reflexivity.
  - rewrite Z.div_small by lia. reflexivity.
Qed.

Lemma download_progress_all_or_nothing_witness :
  updateBinProgress 300000 614400 (DialogFacts.flashing_dialog None)
  = inr (setValue (if (300000 =? 614400)%Z then 100 else 0)%Z
           (DialogFacts.flashing_dialog None)).
Proof.
  apply (download_progress_all_or_nothing 300000 614400
           (DialogFacts.flashing_dialog None)); lia.
Defined.


Lemma erase_ticks_value (n : nat) (ws : t) :
  progress_value (dlg ws) = 0%Z ->
  progress_value (dlg (erase_ticks n ws)) = Z.min (5 * Z.of_nat n) 100 /\
  btns_enabled (erase_ticks n ws) = btns_enabled ws /\
  erase_timer (erase_ticks n ws) = erase_timer ws.
Proof.
  intros Hv. induction n as [|n IH].
  - cbn. rewrite Hv. repeat split.
  - destruct IH as (IHv & IHb & IHt).
    cbn [erase_ticks].
    set (ws' := erase_ticks n ws) in *.
    unfold erase_progress, with_dlg; cbn [btns_enabled erase_timer dlg].
    repeat split; try assumption.
    unfold setValue.
    destruct ((0 <=? progress_value (dlg ws') + 5)%Z
              && (progress_value (dlg ws') + 5 <=? 100)%Z) eqn:E;
      cbn [progress_value].
    + apply andb_true_iff in E; destruct E as [E1 E2].
      apply Z.leb_le in E1, E2. lia.
    + apply andb_false_iff in E.
      destruct E as [E|E]; apply Z.leb_gt in E; lia.
Qed.

(** The simulated progress of the erase stage: [erase_start] puts the bar
    at 0, disables the Abort button and starts the timer; after [n] ticks
    the bar is at [5 n], and stays at 100 from the twentieth tick on, the
    button still disabled; [erase_finished] puts the bar at 100, stops the
    timer and enables the button again. *)
Theorem erase_simulation (n : nat) (ws : t) :
  let during := erase_ticks n (erase_start ws) in
  progress_value (dlg during) = Z.min (5 * Z.of_nat n) 100 /\
  btns_enabled during = false /\
  erase_timer during = Some 1000%N /\
  progress_value (dlg (erase_finished during)) = 100%Z /\
  btns_enabled (erase_finished during) = true /\
  erase_timer (erase_finished during) = None.
Proof.
  intros during.
  destruct (erase_ticks_value n (erase_start ws)) as (Hv & Hb & Ht);
    [reflexivity|].
  fold during in Hv, Hb, Ht.
  repeat split; assumption.
Qed.

Lemma download_bin_data (chunks : list bytes) (ws : t) :
  bin_data (download chunks ws) = bin_data ws ++ List.concat chunks /\
  dlg (download chunks ws) = dlg ws /\
  files (download chunks ws) = files ws /\
  boxes (download chunks ws) = boxes ws.
Proof.
  revert ws; induction chunks as [|c chunks IH]; intros ws; cbn.
  - rewrite app_nil_r. auto.
  - destruct (IH (appendBinFile c ws)) as (B & D & F & X).
    unfold download in *. rewrite B, D, F, X. cbn.
    rewrite <- app_assoc. auto.
Qed.







(** A reply that delivers nothing and reports [downloadProgress(0, 0)]:
    the slot raises and nothing is saved. *)
Example empty_reply_raises (parent : Parent) (p : ESPWorker.Proc) (busy : option N) :
  receive [downloadProgress 0 0] (init parent p busy) = inl ZeroDivisionError.
Proof. reflexivity. Qed.

End DialogSlotsFacts.

(** * The firmware feeds: [processReleaseInfo], [processDevelopmentInfo]
      and the use of their items by the dialog *)

Module HackBox.

(** The methods of Python's [str] that the code uses.  A [str] is taken
    here as the bytes of its UTF-8 form; stripping and splitting at ASCII
    characters is the same on both. *)
Fixpoint mem_char (c : ascii) (chars : string) : bool :=
  match chars with
  | EmptyString => false
  | String d chars' => Ascii.eqb c d || mem_char c chars'
  end.

(** [s.lstrip(chars)]: the leading characters that are in [chars] go. *)
Fixpoint lstrip (chars s : string) : string :=
  match s with
  | EmptyString => EmptyString
  | String c s' => if mem_char c chars then lstrip chars s' else s
  end.

(** [s.rstrip(chars)]: the trailing characters that are in [chars] go. *)
Fixpoint rstrip (chars s : string) : string :=
  match s with
  | EmptyString => EmptyString
  | String c s' =>
      match rstrip chars s' with
      | EmptyString => if mem_char c chars then EmptyString else String c EmptyString
      | r => String c r
      end
  end.

(** [s.split(sep)] for a separator of one character: the pieces between
    the separators, at least one. *)
Fixpoint split (sep : ascii) (s : string) : list string :=
  match s with
  | EmptyString => [EmptyString]
  | String c s' =>
      if Ascii.eqb c sep then EmptyString :: split sep s'
      else
        match split sep s' with
        | piece :: pieces => String c piece :: pieces
        | [] => [String c EmptyString]
        end
  end.

(** [str(n)] of an [int]. *)
Definition str_int (n : Z) : string := NilZero.string_of_int (Z.to_int n).

(** An image of a feed, once [json.loads] has read it: the values of the
    keys [binary], [filesize], [otaurl], and for a development image
    [version] and [commit]. *)
Record Image : Type := {
  binary : string;
  filesize : Z;
  otaurl : string;
  version : string;
  commit : string
}.

(** [self.cbHackboxBin]: its items (text and data) and whether it is
    enabled. *)
Record ComboBox : Type := {
  items : list (string * string);
  enabled : bool
}.

(** One item of the release feed, after [img['filesize'] //= 1024]. *)
Definition release_item (img : Image) : string * string :=
  ((binary img ++ " [" ++ str_int (filesize img / 1024) ++ "kB]")%string,
   (otaurl img ++ ";" ++ binary img)%string).

(** [processReleaseInfo]: [reply] is the object of the release feed as the
    list of its members.  The result is the text of the Release radio
    button and the combo box. *)
Definition processReleaseInfo (reply : list (string * list Image))
    (cb : ComboBox) : Exn + (string * ComboBox) :=
  match reply with
  | [] => inl (OtherException "IndexError")
  | (ver, bins) :: _ =>
      let label := ("Release " ++ lstrip "release-" ver)%string in
      if (0 <? List.length bins)%nat
      then inr (label, {| items := map release_item bins; enabled := true |})
      else inr (label, cb)
  end.

(** One item of the development feed, for an image of the core [core]. *)
Definition development_item (core : string) (img : Image) : string * string :=
  ((binary img ++ " [" ++ version img ++ "@" ++ core ++ ", " ++ commit img
    ++ ", " ++ str_int (filesize img / 1024) ++ "kB]")%string,
   (otaurl img ++ ";" ++ rstrip ".bin" (binary img) ++ "-dev-"
    ++ version img ++ "-" ++ commit img ++ ".bin")%string).


(** What [FlashingDialog.__init__] makes of the data of the current item:
    [data.split(";")[0]] is the address to download from and
    [data.split(";")[1]] the name of the file. *)
Definition source_of (data : string) : Exn + (string * string) :=
  match split ";" data with
  | url :: file :: _ => inr (url, file)
  | _ => inl (OtherException "IndexError")
  end.

End HackBox.

Module HackBoxFacts.
Import HackBox.

Example strip_examples :
  lstrip "release-" "release-8.1.0" = "8.1.0" /\
  lstrip "release-" "release-latest" = "test" /\
  rstrip ".bin" "tasmota-sensors.bin" = "tasmota-sensors" /\
  rstrip ".bin" "tasmota-min.bin" = "tasmota-m" /\
  split ";" "http://host/a.bin;a.bin" = ["http://host/a.bin"; "a.bin"] /\
  split ";" EmptyString = [EmptyString] /\
  str_int (614400 / 1024) = "600".
Proof. repeat split; reflexivity. Qed.

(** [s] is empty or starts with a character that is not in [chars]. *)
Definition starts_outside (chars s : string) : Prop :=
  match s with
  | EmptyString => True
  | String c _ => mem_char c chars = false
  end.


(** Every character of [s] is in [chars]. *)
Fixpoint all_in (chars s : string) : Prop :=
  match s with
  | EmptyString => True
  | String c s' => mem_char c chars = true /\ all_in chars s'
  end.


Lemma lstrip_spec (chars s : string) :
  exists stripped,
    s = (stripped ++ lstrip chars s)%string /\
    all_in chars stripped /\
    starts_outside chars (lstrip chars s).
Proof.
  induction s as [|c s IH]; cbn.
  - exists EmptyString; cbn; auto.
  - destruct (mem_char c chars) eqn:E.
    + destruct IH as (pre & Hs & Hall & Hout).
      exists (String c pre); cbn. rewrite <- Hs. auto.
    + exists EmptyString; cbn; auto.
Qed.

Lemma lstrip_outside (chars s : string) :
  starts_outside chars s -> lstrip chars s = s.
Proof.
  destruct s as [|c s]; cbn; [reflexivity|]. intros ->; reflexivity.
Qed.








(** The text of the Release button: the version of the feed without its
    leading run of characters among [r e l a s -] (all of them, so more
    than the word [release-] when the rest starts with one of them); it is
    the rest itself when the version is [release-] followed by a text that
    starts with none of those characters.  The combo box is left as it was
    when the feed lists no image. *)
Theorem release_label
  (ver : string) (bins : list Image) (rest : list (string * list Image))
  (cb : ComboBox) :
  exists stripped kept cb',
    processReleaseInfo ((ver, bins) :: rest) cb
    = inr (("Release " ++ kept)%string, cb') /\
    ver = (stripped ++ kept)%string /\
    all_in "release-" stripped /\
    starts_outside "release-" kept /\
    (forall v, ver = ("release-" ++ v)%string ->
               starts_outside "release-" v -> kept = v) /\
    (bins = [] -> cb' = cb).
Proof.
  destruct (lstrip_spec "release-" ver) as (stripped & Hs & Hall & Hout).
  exists stripped, (lstrip "release-" ver).
  unfold processReleaseInfo.
  destruct bins as [|img bins]; cbn [List.length Nat.ltb Nat.leb];
    eexists; (split; [reflexivity|]);
    (split; [exact Hs|]); (split; [exact Hall|]); (split; [exact Hout|]);
    (split; [|intros; first [reflexivity | discriminate]]);
    intros v -> Hv; cbn; apply lstrip_outside, Hv.
Qed.


Definition sample_release_image : Image :=
  {| binary := "tasmota-lite.bin"; filesize := 614400;
     otaurl := "http://thehackbox.org/tasmota/release/tasmota-lite.bin";
     version := EmptyString; commit := EmptyString |}.






Definition sample_development_image : Image :=
  {| binary := "tasmota-sensors.bin"; filesize := 655360;
     otaurl := "http://thehackbox.org/tasmota/020300/tasmota-sensors.bin";
     version := "8.1.0.2"; commit := "f3a2c91" |}.


(** The item of the sample development image, in full. *)
Example sample_development_item :
  development_item "2_6_1" sample_development_image
  = ("tasmota-sensors.bin [8.1.0.2@2_6_1, f3a2c91, 640kB]",
     "http://thehackbox.org/tasmota/020300/tasmota-sensors.bin;tasmota-sensors-dev-8.1.0.2-f3a2c91.bin").
Proof. reflexivity. Qed.

End HackBoxFacts.

(** * More about the serial listener *)

Module ListenerMore.
Import Tasmotizer ListenerFacts.

Lemma digit_group_length (nd : N -> bool) (g : text) :
  digit_group nd g -> (1 <= List.length g <= 3)%nat.
Proof. intros [H _]; exact H. Qed.

(** The text of [k + 1] groups and [k] dots is [2 k + 1] to [4 k + 3] code
    points long. *)
Lemma dotted_length (nd : N -> bool) (k : nat) :
  forall ip,
    dotted nd k ip ->
    (2 * k + 1 <= List.length ip <= 4 * k + 3)%nat.
Proof.
  induction k as [|k IH]; intros ip H; cbn [dotted] in H.
  - apply digit_group_length in H. lia.
  - destruct H as (g & rest & -> & Hg & Hrest).
    apply digit_group_length in Hg. apply IH in Hrest.
    rewrite length_app. cbn [List.length]. lia.
Qed.

(** What the listener has shown and whether it still listens. *)
Definition silent (l : Listener) : Prop :=
  shown l = [] /\ port_open l = true.

Definition reported (nd : N -> bool) (l : Listener) : Prop :=
  exists ip,
    shown l = [text_of_string "Device IP: " ++ ip] /\
    port_open l = false /\
    dotted nd 3 ip /\
    (7 <= List.length ip <= 15)%nat.

Lemma showCurrentIP_silent (nd : N -> bool) (cur : bytes) (l : Listener) :
  silent l -> silent (showCurrentIP nd cur l) \/ reported nd (showCurrentIP nd cur l).
Proof.
  intros [Hs Ho]. unfold showCurrentIP.
  destruct (str_utf8 (previous_reply l ++ cur)) as [decoded|];
    [|left; split; assumption].
  destruct (re_search nd (remove_crlf decoded)) as [ip|] eqn:E.
  - right. exists ip. cbn. rewrite Hs.
    destruct (re_search_sound nd _ _ E) as (n & (Hdot & _) & _).
    repeat split; try assumption; apply (dotted_length nd 3 ip Hdot).
  - left. split; assumption.
Qed.

(** From the start of the listening on, whatever arrives and however it is
    cut into chunks: either nothing has been shown and the port is open, or
    exactly one message has been shown, [Device IP: ] followed by four
    groups of one to three digits separated by dots (7 to 15 characters),
    and the port is closed.  The listener never reports twice. *)
Theorem listener_reports_at_most_once (nd : N -> bool) (chunks : list bytes) :
  silent (feed nd chunks listening) \/ reported nd (feed nd chunks listening).
Proof.
  assert (H0 : silent listening \/ reported nd listening)
    by (left; split; reflexivity).
  revert H0. generalize listening as l.
  induction chunks as [|c chunks IH]; intros l Hl; [exact Hl|].
  unfold feed in *. cbn [fold_left]. apply IH.
  destruct Hl as [Hs | Hr].
  - destruct Hs as [Hs Ho]. rewrite Ho.
    apply showCurrentIP_silent; split; assumption.
  - destruct Hr as (ip & Hs & Ho & Hd). rewrite Ho.
    right; exists ip; auto.
Qed.

End ListenerMore.

(** * The main window: [start_process] *)

Module MainWindow.
Import FlashingDialog Tasmotizer.

(** The fields and widgets of the main window that [start_process] and the
    dialog read: [self.mode], [self.bin_file], the text of [self.file], the
    value ["bin_file"] of the settings, whether [self.port] is open, the
    data of the current item of [cbHackboxBin] ([None] without a current
    item) and of [cbxPort], and the three check boxes. *)
Record t : Type := {
  mode : Z;
  bin_file : string;
  file_text : string;
  settings_bin_file : option string;
  port_is_open : bool;
  current_data : option string;
  port_data : string;
  backup_checked : bool;
  erase_checked : bool;
  verify_checked : bool
}.

(** [if self.port.isOpen(): self.port.close()] *)
Definition close_port (mw : t) : t :=
  {| mode := mode mw; bin_file := bin_file mw; file_text := file_text mw;
     settings_bin_file := settings_bin_file mw; port_is_open := false;
     current_data := current_data mw; port_data := port_data mw;
     backup_checked := backup_checked mw; erase_checked := erase_checked mw;
     verify_checked := verify_checked mw |}.

(** [self.bin_file = self.file.text();
     self.settings.setValue("bin_file", self.bin_file)] *)
Definition take_file (mw : t) : t :=
  {| mode := mode mw; bin_file := file_text mw; file_text := file_text mw;
     settings_bin_file := Some (file_text mw); port_is_open := port_is_open mw;
     current_data := current_data mw; port_data := port_data mw;
     backup_checked := backup_checked mw; erase_checked := erase_checked mw;
     verify_checked := verify_checked mw |}.

(** What [FlashingDialog.__init__] reads from the main window, and the
    address it downloads from in mode 1 or 2.  Without a current item
    [currentData()] is [None], which has no [split]. *)
Definition parent_of (mw : t) : Exn + (Parent * option string) :=
  let parent file :=
    {| FlashingDialog.mode := mode mw; parent_bin_file := bin_file mw;
       hackbox_file := file; cbxPort := port_data mw;
       cbBackup := backup_checked mw; cbErase := erase_checked mw;
       cbVerify := verify_checked mw |} in
  if ((mode mw =? 1) || (mode mw =? 2))%Z then
    match current_data mw with
    | None => inl (AttributeError "split")
    | Some data =>
        match HackBox.source_of data with
        | inl e => inl e
        | inr (url, file) => inr (parent file, Some url)
        end
    end
  else inr (parent EmptyString, None).

(** What [start_process] has done when it returns: the main window, the
    dialog as [FlashingDialog(self)] built it (if it did), the address the
    dialog downloads from (if any), and the message boxes shown. *)
Record Outcome : Type := {
  window : t;
  dialog : option DialogSlots.t;
  download_url : option string;
  message_boxes : list MessageBox
}.

(** [dlg = FlashingDialog(self)] and the rest of [start_process].  [during]
    is what the slots of the dialog do to it while [dlg.exec_()] runs. *)
Definition open_dialog (during : DialogSlots.t -> DialogSlots.t)
    (p : ESPWorker.Proc) (busy : option N) (mw : t) : Exn + Outcome :=
  match parent_of mw with
  | inl e => inl e
  | inr (parent, url) =>
      let ws := DialogSlots.init parent p busy in
      inr {| window := mw; dialog := Some ws; download_url := url;
             message_boxes := [present (DialogSlots.dlg (during ws))] |}
  end.

Definition start_process (during : DialogSlots.t -> DialogSlots.t)
    (p : ESPWorker.Proc) (busy : option N) (mw : t) : Exn + Outcome :=
  let mw1 := close_port mw in
  if (mode mw1 =? 0)%Z then
    if (0 <? String.length (file_text mw1))%nat then
      open_dialog during p busy (take_file mw1)
    else
      inr {| window := mw1; dialog := None; download_url := None;
             message_boxes :=
               [information "Nothing to do..."
                  "Select a local BIN file or select which one to download."] |}
  else open_dialog during p busy mw1.

End MainWindow.

Module MainWindowFacts.
Import FlashingDialog Tasmotizer MainWindow.

(** In mode 0 (a local file).  With no file chosen, [start_process] only
    closes the port of the listener and says that there is nothing to do:
    no dialog is built, so no worker either.  With a file chosen, the
    dialog creates the worker at once, for that file, for the port chosen
    and with the three check boxes as they are; the file is remembered in
    the settings and the port of the listener is closed. *)
Theorem start_process_local_file
  (during : DialogSlots.t -> DialogSlots.t) (p : ESPWorker.Proc)
  (busy : option N) (mw : t) :
  mode mw = 0%Z ->
  (file_text mw = EmptyString ->
   start_process during p busy mw
   = inr {| window := close_port mw; dialog := None; download_url := None;
            message_boxes :=
              [information "Nothing to do..."
                 "Select a local BIN file or select which one to download."] |})
  /\
  (file_text mw <> EmptyString ->
   exists out ws,
     start_process during p busy mw = inr out /\
     dialog out = Some ws /\
     espworker (DialogSlots.dlg ws)
     = Some (ESPWorker.init (port_data mw) (file_text mw) (backup_checked mw)
               (erase_checked mw) (verify_checked mw)) /\
     thread_ops (DialogSlots.dlg ws) = [op_start] /\
     download_url out = None /\
     bin_file (window out) = file_text mw /\
     settings_bin_file (window out) = Some (file_text mw) /\
     port_is_open (window out) = false).
Proof.
  intros Hmode. unfold start_process. cbn [mode close_port file_text].
  rewrite Hmode. cbn [Z.eqb]. split.
  - intros ->. reflexivity.
  - intros Hne. destruct (file_text mw) as [|c s] eqn:E; [congruence|].
    cbn [String.length Nat.ltb Nat.leb].
    unfold open_dialog, parent_of. cbn [mode take_file close_port].
    rewrite Hmode. cbn [Z.eqb orb].
    eexists _, _; split; [reflexivity|]. split; [reflexivity|].
    unfold DialogSlots.init, FlashingDialog.init. cbn.
    rewrite E. repeat split.
Qed.

Definition sample_window : t :=
  {| mode := 0; bin_file := EmptyString; file_text := "/home/me/tasmota.bin";
     settings_bin_file := None; port_is_open := true; current_data := None;
     port_data := "/dev/ttyUSB0"; backup_checked := true;
     erase_checked := true; verify_checked := false |}.

Lemma start_process_local_file_witness :
  (file_text sample_window = EmptyString ->
   start_process (fun ws => ws) (ESPWorker.fresh_proc false) None sample_window
   = inr {| window := close_port sample_window; dialog := None;
            download_url := None;
            message_boxes :=
              [information "Nothing to do..."
                 "Select a local BIN file or select which one to download."] |})
  /\
  (file_text sample_window <> EmptyString ->
   exists out ws,
     start_process (fun ws => ws) (ESPWorker.fresh_proc false) None sample_window
     = inr out /\
     dialog out = Some ws /\
     espworker (DialogSlots.dlg ws)
     = Some (ESPWorker.init (port_data sample_window) (file_text sample_window)
               (backup_checked sample_window) (erase_checked sample_window)
               (verify_checked sample_window)) /\
     thread_ops (DialogSlots.dlg ws) = [op_start] /\
     download_url out = None /\
     bin_file (window out) = file_text sample_window /\
     settings_bin_file (window out) = Some (file_text sample_window) /\
     port_is_open (window out) = false).
Proof.
  apply (start_process_local_file (fun ws => ws) (ESPWorker.fresh_proc false)
           None sample_window).
  reflexivity.
Defined.

(** In mode 1 or 2 (an image of a feed), with a current item whose data
    reads as address and file name.  [start_process] closes the port of the
    listener and builds a dialog that has no worker yet and downloads from
    that address.  When the download has finished without error, the file
    of that name holds the chunks received, in order, and the worker is
    created for the port chosen; the command line of its write stage names
    that very file. *)
Theorem start_process_download
  (during : DialogSlots.t -> DialogSlots.t) (p : ESPWorker.Proc)
  (busy : option N) (mw : t) (data url file : string)
  (chunks : list bytes) :
  mode mw = 1%Z \/ mode mw = 2%Z ->
  current_data mw = Some data ->
  HackBox.source_of data = inr (url, file) ->
  exists out ws parent ws' w,
    start_process during p busy mw = inr out /\
    port_is_open (window out) = false /\
    dialog out = Some ws /\
    download_url out = Some url /\
    espworker (DialogSlots.dlg ws) = None /\
    parent_of (close_port mw) = inr (parent, Some url) /\
    DialogSlots.saveBinFile DialogSlots.NoError true parent busy
      (DialogSlots.download chunks ws) = inr ws' /\
    DialogSlots.files ws' = [(file, List.concat chunks)] /\
    espworker (DialogSlots.dlg ws') = Some w /\
    ESPWorker.continue_flag w = true /\
    ESPWorkerFacts.write_command_line w
    = ["--chip"; "esp8266"; "--port"; port_data mw; "--baud"; "115200";
       "--after"; "soft_reset"; "write_flash"; "--flash_mode"; "dout";
       "--flash_size"; "1MB"; "0x00000"; file]
      ++ ESPWorkerFacts.write_options w.
Proof.
  intros Hmode Hdata Hsrc.
  assert (Hm : ((mode mw =? 1) || (mode mw =? 2))%Z = true)
    by (destruct Hmode as [-> | ->]; reflexivity).
  assert (Hm0 : (mode mw =? 0)%Z = false)
    by (destruct Hmode as [-> | ->]; reflexivity).
  set (parent :=
         {| FlashingDialog.mode := mode mw; parent_bin_file := bin_file mw;
            hackbox_file := file; cbxPort := port_data mw;
            cbBackup := backup_checked mw; cbErase := erase_checked mw;
            cbVerify := verify_checked mw |}).
  assert (Hparent : parent_of (close_port mw) = inr (parent, Some url)).
  { unfold parent_of. cbn [mode close_port current_data bin_file port_data
                           backup_checked erase_checked verify_checked].
    rewrite Hm, Hdata, Hsrc. reflexivity. }
  destruct (DialogSlotsFacts.download_bin_data chunks
              (DialogSlots.init parent p busy)) as (B & D & F & X).
  assert (Hd : DialogSlots.dlg (DialogSlots.init parent p busy) =
               {| FlashingDialog.bin_file := file; error_msg := None;
                  espworker := None; espthread := None; proc := p;
                  thread_ops := []; blocked := 0; progress_value := (-1);
                  result := None |}).
  { unfold DialogSlots.init, FlashingDialog.init; cbn.
    destruct Hmode as [-> | ->]; reflexivity. }
  eexists _, (DialogSlots.init parent p busy), parent, _, _.
  split.
  { unfold start_process. cbn [mode close_port]. rewrite Hm0.
    unfold open_dialog. rewrite Hparent. reflexivity. }
  split; [reflexivity|]. split; [reflexivity|]. split; [reflexivity|].
  split; [rewrite Hd; reflexivity|].
  split; [exact Hparent|].
  split; [reflexivity|].
  cbn [DialogSlots.files DialogSlots.dlg DialogSlots.with_dlg
       DialogSlots.setText].
  rewrite D, B, F, Hd. cbn.
  repeat split.
Qed.

Definition sample_download_window : t :=
  {| mode := 1; bin_file := EmptyString; file_text := EmptyString;
     settings_bin_file := None; port_is_open := false;
     current_data :=
       Some (snd (HackBox.release_item HackBoxFacts.sample_release_image));
     port_data := "/dev/ttyUSB0"; backup_checked := false;
     erase_checked := true; verify_checked := false |}.

Lemma start_process_download_witness :
  exists out ws parent ws' w,
    start_process (fun ws => ws) (ESPWorker.fresh_proc false) None
      sample_download_window = inr out /\
    port_is_open (window out) = false /\
    dialog out = Some ws /\
    download_url out
    = Some "http://thehackbox.org/tasmota/release/tasmota-lite.bin" /\
    espworker (DialogSlots.dlg ws) = None /\
    parent_of (close_port sample_download_window)
    = inr (parent,
           Some "http://thehackbox.org/tasmota/release/tasmota-lite.bin") /\
    DialogSlots.saveBinFile DialogSlots.NoError true parent None
      (DialogSlots.download (map bytes_of_string ["firm"; "ware"]) ws)
    = inr ws' /\
    DialogSlots.files ws'
    = [("tasmota-lite.bin",
        List.concat (map bytes_of_string ["firm"; "ware"]))] /\
    espworker (DialogSlots.dlg ws') = Some w /\
    ESPWorker.continue_flag w = true /\
    ESPWorkerFacts.write_command_line w
    = ["--chip"; "esp8266"; "--port"; port_data sample_download_window;
       "--baud"; "115200"; "--after"; "soft_reset"; "write_flash";
       "--flash_mode"; "dout"; "--flash_size"; "1MB"; "0x00000";
       "tasmota-lite.bin"]
      ++ ESPWorkerFacts.write_options w.
Proof.
  apply (start_process_download (fun ws => ws) (ESPWorker.fresh_proc false)
           None sample_download_window
           (snd (HackBox.release_item HackBoxFacts.sample_release_image))
           "http://thehackbox.org/tasmota/release/tasmota-lite.bin"
           "tasmota-lite.bin"
           (map bytes_of_string ["firm"; "ware"])).
  - left; reflexivity.
  - reflexivity.
  - reflexivity.
Defined.

End MainWindowFacts.

(** * The list of ports: [refreshPorts] *)

From Stdlib Require Import Sorted Permutation RelationClasses.
From Stdlib Require Mergesort Orders.

Module Ports.

(** The order of Python on [str]: character by character. *)
Module StringOrder <: Orders.TotalLeBool.
Definition t : Type := string.
Definition leb : t -> t -> bool := String.leb.
Lemma leb_total (a1 a2 : t) : is_true (leb a1 a2) \/ is_true (leb a2 a1).
Proof. apply String.leb_total. Qed.
End StringOrder.

Module StringSort := Mergesort.Sort StringOrder.

(** [sorted(names)]: the names in ascending order.  (Two equal names are
    the same string, so the ascending arrangement is the only one; see
    [sorted_unique] below.) *)
Definition sorted (names : list string) : list string :=
  StringSort.sort names.

(** [refreshPorts]: the items (text and data) of [cbxPort] afterwards.
    [available] are the names of [QSerialPortInfo.availablePorts()] and
    [info p] is the name and the system location of [QSerialPortInfo(p)]. *)
Definition refreshPorts (available : list string)
    (info : string -> string * string) : list (string * string) :=
  map info (rev (sorted available)).

End Ports.

Module PortsFacts.
Import Ports.

Lemma string_leb_trans (a : string) :
  forall b c,
    String.leb a b = true -> String.leb b c = true -> String.leb a c = true.
Proof.
  induction a as [|x a IH]; intros [|y b] [|z c]; unfold String.leb; cbn;
    try easy.
  unfold Ascii.compare.
  destruct (N.compare_spec (N_of_ascii x) (N_of_ascii y)) as [Exy|Lxy|Gxy],
           (N.compare_spec (N_of_ascii y) (N_of_ascii z)) as [Eyz|Lyz|Gyz],
           (N.compare_spec (N_of_ascii x) (N_of_ascii z)) as [Exz|Lxz|Gxz];
    try easy; try lia.
  apply IH.
Qed.

Lemma leb_transitive : Transitive (fun a b => is_true (String.leb a b)).
Proof. intros a b c. apply string_leb_trans. Qed.

Lemma sorted_ascending (names : list string) :
  StronglySorted (fun a b => is_true (String.leb a b)) (sorted names).
Proof. apply StringSort.StronglySorted_sort, leb_transitive. Qed.

Lemma sorted_permutation (names : list string) :
  Permutation names (sorted names).
Proof. apply StringSort.Permuted_sort. Qed.

(** There is one ascending arrangement of a list of strings. *)
Lemma ascending_unique (l1 : list string) :
  forall l2,
    Permutation l1 l2 ->
    StronglySorted (fun a b => is_true (String.leb a b)) l1 ->
    StronglySorted (fun a b => is_true (String.leb a b)) l2 ->
    l1 = l2.
Proof.
  induction l1 as [|a l1 IH]; intros l2 Hp H1 H2.
  - apply Permutation_nil in Hp. congruence.
  - destruct l2 as [|b l2];
      [apply Permutation_sym, Permutation_nil in Hp; discriminate|].
    apply StronglySorted_inv in H1; destruct H1 as [H1 Ha].
    apply StronglySorted_inv in H2; destruct H2 as [H2 Hb].
    rewrite Forall_forall in Ha, Hb.
    assert (Hab : a = b).
    { assert (Hin1 : In a (b :: l2))
        by (apply (Permutation_in _ Hp); left; reflexivity).
      assert (Hin2 : In b (a :: l1))
        by (apply (Permutation_in _ (Permutation_sym Hp)); left; reflexivity).
      destruct Hin1 as [->|Hin1]; [reflexivity|].
      destruct Hin2 as [->|Hin2]; [reflexivity|].
      apply String.leb_antisym; [apply Ha, Hin2 | apply Hb, Hin1]. }
    subst b. f_equal. apply IH; try assumption.
    apply (Permutation_cons_inv Hp).
Qed.

Lemma sorted_unique (names arranged : list string) :
  Permutation names arranged ->
  StronglySorted (fun a b => is_true (String.leb a b)) arranged ->
  arranged = sorted names.
Proof.
  intros Hp Hs. apply ascending_unique; [|exact Hs|apply sorted_ascending].
  apply (Permutation_trans (Permutation_sym Hp)), sorted_permutation.
Qed.

Lemma StronglySorted_snoc {A : Type} (R : A -> A -> Prop) (l : list A) (a : A) :
  StronglySorted R l -> Forall (fun x => R x a) l ->
  StronglySorted R (l ++ [a]).
Proof.
  induction 1 as [|b l Hs IH Hb]; intros Hall; cbn.
  - repeat constructor.
  - inversion Hall; subst. constructor; [apply IH; assumption|].
    apply Forall_app; split; [assumption | repeat constructor; assumption].
Qed.

Lemma StronglySorted_rev {A : Type} (R : A -> A -> Prop) (l : list A) :
  StronglySorted R l -> StronglySorted (fun a b => R b a) (rev l).
Proof.
  induction 1 as [|a l Hs IH Ha]; cbn; [constructor|].
  apply StronglySorted_snoc; [exact IH|].
  apply Forall_rev. exact Ha.
Qed.

(** After [refreshPorts] the combo box lists the available ports, each as
    often as it is available, in descending order of name (so that the
    greatest name comes first), the earlier items being dropped. *)
Theorem refreshPorts_descending
  (available : list string) (info : string -> string * string) :
  exists order,
    refreshPorts available info = map info order /\
    Permutation available order /\
    StronglySorted (fun a b => is_true (String.leb b a)) order /\
    List.length (refreshPorts available info) = List.length available.
Proof.
  exists (rev (sorted available)). split; [reflexivity|]. split; [|split].
  - apply (Permutation_trans (sorted_permutation available)),
      Permutation_rev.
  - apply (StronglySorted_rev (fun a b => is_true (String.leb a b))),
      sorted_ascending.
  - unfold refreshPorts. rewrite length_map, length_rev.
    symmetry. apply Permutation_length, sorted_permutation.
Qed.

Example refreshPorts_example :
  refreshPorts ["ttyUSB0"; "ttyS0"; "ttyUSB1"] (fun p => (p, "/dev/" ++ p)%string)
  = [("ttyUSB1", "/dev/ttyUSB1"); ("ttyUSB0", "/dev/ttyUSB0");
     ("ttyS0", "/dev/ttyS0")].
Proof. reflexivity. Qed.

End PortsFacts.
